(** * Synthetic MOF electrochemistry data generator

    A shallow embedding of [generate_synthetic_data.py]: the property
    tables, the four curve generators (GCD, rate capability, IES, EIS), the
    sample orchestrator, the dataset loop and the feature encoder, followed
    by the properties of the specification that concern them.

    Conventions of the embedding.
    - Python floats are idealised as real numbers ([R]); NumPy arrays of
      floats are lists of reals.  Formulas keep the order in which the code
      writes them; where the value over the reals and the binary64 value
      the code computes differ in the last digits, the property is stated
      up to rounding.
    - Integers are [Z]; the properties that leave the parameter spaces
      bound the valency so that [100 * valency] is still an [np.int64].
    - Python dictionaries with string keys are [gmap string _]; a dictionary
      literal is [list_to_map] of its items, subscription [d[k]] raises
      [KeyError k] when the key is absent.
    - NumPy's process-wide random generator is an explicit state threaded
      through every call; a computation either raises or returns a value
      together with the next generator state. *)

From Stdlib Require Import Reals Lra Lia ZArith.
From stdpp Require Import gmap strings list fin_maps.

Local Open Scope string_scope.

(** ** Exceptions and results *)

Inductive exception : Type :=
  | KeyError (key : string)
  | ValueError (msg : string)
  | TypeError (msg : string)
  | ZeroDivisionError
  | OSError (class_name : string).

(** The name of the Python class of an exception, as a traceback shows it. *)
Definition exception_class (e : exception) : string :=
  match e with
  | KeyError _ => "KeyError"
  | ValueError _ => "ValueError"
  | TypeError _ => "TypeError"
  | ZeroDivisionError => "ZeroDivisionError"
  | OSError class_name => class_name
  end.

Inductive result (A : Type) : Type :=
  | Ok (a : A)
  | Raise (e : exception).
Arguments Ok {A} a.
Arguments Raise {A} e.

(** [d[k]] on a dictionary. *)
Definition getitem {V : Type} (d : gmap string V) (k : string) : result V :=
  match d !! k with
  | Some v => Ok v
  | None => Raise (KeyError k)
  end.

(** ** The part of NumPy the generators use *)

Module np.
Local Open Scope R_scope.

(** [np.linspace(start, stop, num)] with the default [endpoint=True]:
    [arange(num) * step + start] with [step = (stop - start) / (num - 1)],
    and the last element overwritten with [stop] when [num > 1]. *)
Definition linspace (start stop : R) (num : nat) : list R :=
  let div := (num - 1)%nat in
  let step := (stop - start) / INR div in
  map (fun i : nat =>
         if ((1 <? num)%nat && (i =? div)%nat)%bool then stop
         else INR i * step + start)
      (seq 0 num).

(** [np.logspace(start, stop, num)]: [10 ** linspace(start, stop, num)]. *)
Definition logspace (start stop : R) (num : nat) : list R :=
  map (Rpower 10) (linspace start stop num).

(** [np.clip(a, a_min, a_max)] is [minimum(maximum(a, a_min), a_max)];
    [None] stands for a missing bound. *)
Definition clip1 (a_min a_max : option R) (x : R) : R :=
  let y := match a_min with Some lo => Rmax x lo | None => x end in
  match a_max with Some hi => Rmin y hi | None => y end.

Definition clip (a : list R) (a_min a_max : option R) : list R :=
  map (clip1 a_min a_max) a.

(** Element-wise addition [a += b] of two arrays of one length. *)
Definition add (a b : list R) : list R := zip_with Rplus a b.

(** Complex numbers, as pairs (real part, imaginary part). *)
Definition complex : Type := R * R.

Definition real (z : complex) : R := fst z.
Definition imag (z : complex) : R := snd z.
Definition of_real (x : R) : complex := (x, 0).
Definition j : complex := (0, 1).

Definition cadd (z w : complex) : complex :=
  (real z + real w, imag z + imag w).
Definition csub (z w : complex) : complex :=
  (real z - real w, imag z - imag w).
Definition cmul (z w : complex) : complex :=
  (real z * real w - imag z * imag w, real z * imag w + imag z * real w).
Definition cinv (z : complex) : complex :=
  let n := real z * real z + imag z * imag z in
  (real z / n, - imag z / n).
Definition cdiv (z w : complex) : complex := cmul z (cinv w).

Definition cabs (z : complex) : R :=
  sqrt (real z * real z + imag z * imag z).

Definition atan2 (y x : R) : R :=
  if Rlt_dec 0 x then atan (y / x)
  else if Rlt_dec x 0 then
         (if Rle_dec 0 y then atan (y / x) + PI else atan (y / x) - PI)
  else if Rlt_dec 0 y then PI / 2
  else if Rlt_dec y 0 then - (PI / 2)
  else 0.

Definition angle (z : complex) : R := atan2 (imag z) (real z).

Definition clog (z : complex) : complex := (ln (cabs z), angle z).
Definition cexp (z : complex) : complex :=
  (exp (real z) * cos (imag z), exp (real z) * sin (imag z)).

(** [z ** p] for a complex base and a float exponent that is not a small
    integer: [exp(p * log z)]. *)
Definition cpow (z : complex) (p : R) : complex :=
  cexp (cmul (of_real p) (clog z)).
End np.

(** ** The random generator *)

(** The operations of [np.random] the program calls, on an explicit
    generator state: [seed] builds the state from the seed alone, the
    others draw one value and return the next state.  [normal loc scale]
    is one Gaussian draw; [randint n] is the index draw behind
    [np.random.choice] on a sequence of [n] elements. *)
Class RandomState : Type := {
  rng : Type;
  seed : Z -> rng;
  random : rng -> R * rng;
  normal : R -> R -> rng -> R * rng;
  randint : nat -> rng -> nat * rng
}.

(** What NumPy promises of the draws: [random()] lies in the half-open
    interval from 0 to 1, and an index drawn for a non-empty sequence lies
    inside it. *)
Class RandomStateLaws (G : RandomState) : Prop := {
  random_range : forall g : rng, (0 <= fst (random g) < 1)%R;
  randint_lt : forall (n : nat) (g : rng), (0 < n)%nat -> (fst (randint n g) < n)%nat
}.

(** A small deterministic generator, for running the model on concrete
    inputs: a linear congruential state, the uniform draw is the state
    modulo 1000 over 1000, the Gaussian draw is the mean shifted by a
    multiple of the scale. *)
Definition lcg_next (s : Z) : Z := ((1103515245 * s + 12345) mod 2147483648)%Z.

Definition lcg_random_state : RandomState := {|
  rng := Z;
  seed := fun s => (s mod 2147483648)%Z;
  random := fun s => ((IZR (s mod 1000) / 1000)%R, lcg_next s);
  normal := fun loc scale s =>
    ((loc + scale * (IZR (s mod 7) - 3) / 3)%R, lcg_next s);
  randint := fun n s => (Z.to_nat (s mod Z.of_nat n), lcg_next s)
|}.

(** ** Configuration and parameter spaces *)


Definition METALS : list string :=
  ["Cu"; "Ni"; "Co"; "Zn"; "Fe"; "Mn"; "Ag"; "Au"; "Pd"; "Pt"; "Cr"; "V";
   "Ti"; "Mo"; "W"].
Definition VALENCIES : list Z := [1; 2; 3]%Z.
Definition LIGANDS : list string := ["BDC"; "BTC"; "DOBDC"; "BPDC"; "NDC"; "TPA"].
Definition ASSEMBLIES : list string := ["Two-Electrode"; "Three-Electrode"].
Definition ELECTRODES : list string :=
  ["Nickel Foam"; "Glassy Carbon"; "Carbon Cloth"; "Stainless Steel"].
Definition IS_MOF : list bool := [true; false].

(** ** Property tables *)

Record MetalProperties : Type := {
  redox_factor : R;
  conductivity : R;
  plasmon_peak : R;
  d_transition : R
}.

Record ElectrodeProperties : Type := {
  capacity_boost : R;
  resistance : R
}.

Record LigandProperties : Type := {
  porosity : R;
  stability : R
}.

Section Tables.
Local Open Scope R_scope.

Definition mk_metal (rf c pp dt : R) : MetalProperties :=
  {| redox_factor := rf; conductivity := c; plasmon_peak := pp; d_transition := dt |}.

Definition METAL_PROPERTIES_items : list (string * MetalProperties) :=
  [("Cu", mk_metal 1.2 1.15 22 5);
   ("Ni", mk_metal 1.1 1.10 20 6);
   ("Co", mk_metal 1.15 1.12 21 5.5);
   ("Zn", mk_metal 0.95 1.05 19 7);
   ("Fe", mk_metal 1.05 1.08 20.5 6.5);
   ("Mn", mk_metal 1.0 1.06 19.5 6.8);
   ("Ag", mk_metal 1.25 1.20 23 4.5);
   ("Au", mk_metal 1.18 1.18 24 4.8);
   ("Pd", mk_metal 1.12 1.14 21.5 5.2);
   ("Pt", mk_metal 1.22 1.17 23.5 5.0);
   ("Cr", mk_metal 1.08 1.09 20.2 6.2);
   ("V", mk_metal 1.06 1.07 19.8 6.5);
   ("Ti", mk_metal 0.98 1.04 18.5 7.2);
   ("Mo", mk_metal 1.13 1.11 21.8 5.8);
   ("W", mk_metal 1.16 1.13 22.5 5.5)].

Definition METAL_PROPERTIES : gmap string MetalProperties :=
  list_to_map METAL_PROPERTIES_items.

(** The bundle [get_metal_properties] returns for a metal the table does
    not have. *)
Definition default_metal_properties : MetalProperties :=
  mk_metal 1.0 1.0 20.0 6.0.

Definition get_metal_properties (metal : string) : MetalProperties :=
  match METAL_PROPERTIES !! metal with
  | Some props => props
  | None => default_metal_properties
  end.

Definition ELECTRODE_PROPERTIES_items : list (string * ElectrodeProperties) :=
  [("Nickel Foam", {| capacity_boost := 1.3; resistance := 0.8 |});
   ("Glassy Carbon", {| capacity_boost := 1.0; resistance := 1.0 |});
   ("Carbon Cloth", {| capacity_boost := 1.15; resistance := 0.9 |});
   ("Stainless Steel", {| capacity_boost := 1.1; resistance := 1.1 |})].

Definition ELECTRODE_PROPERTIES : gmap string ElectrodeProperties :=
  list_to_map ELECTRODE_PROPERTIES_items.

Definition LIGAND_PROPERTIES_items : list (string * LigandProperties) :=
  [("BDC", {| porosity := 1.1; stability := 1.0 |});
   ("BTC", {| porosity := 1.2; stability := 1.1 |});
   ("DOBDC", {| porosity := 1.15; stability := 1.05 |});
   ("BPDC", {| porosity := 1.05; stability := 0.95 |});
   ("NDC", {| porosity := 1.08; stability := 1.02 |});
   ("TPA", {| porosity := 1.12; stability := 1.08 |})].

Definition LIGAND_PROPERTIES : gmap string LigandProperties :=
  list_to_map LIGAND_PROPERTIES_items.
End Tables.

(** ** Material parameters and generator outputs *)

(** The [params] dictionary: always built with these six keys. *)
Record MaterialParameters : Type := {
  metal : string;
  valency : Z;
  ligand : string;
  assembly : string;
  electrode : string;
  is_mof : bool
}.

(** A parameter set whose fields are drawn from the parameter spaces. *)
Definition valid_params (p : MaterialParameters) : Prop :=
  metal p ∈ METALS /\ valency p ∈ VALENCIES /\ ligand p ∈ LIGANDS /\
  assembly p ∈ ASSEMBLIES /\ electrode p ∈ ELECTRODES.

Definition valid_paramsb (p : MaterialParameters) : bool :=
  bool_decide (metal p ∈ METALS) && bool_decide (valency p ∈ VALENCIES) &&
  bool_decide (ligand p ∈ LIGANDS) && bool_decide (assembly p ∈ ASSEMBLIES) &&
  bool_decide (electrode p ∈ ELECTRODES).

Record GcdCurve : Type := { time : list R; voltage : list R }.

Record RateCapability : Type := {
  current_density : list R;
  specific_capacity : list R
}.

Record IesSpectrum : Type := { energy : list R; intensity : list R }.

Record EisNyquist : Type := {
  z_real : list R;
  z_imag : list R;
  frequency : list R
}.

Record Outputs : Type := {
  gcd : gmap string GcdCurve;
  rate_capability : RateCapability;
  ies : IesSpectrum;
  eis : EisNyquist
}.

Record Sample : Type := { inputs : MaterialParameters; outputs : Outputs }.

(** ** Computations over the generator state *)

Section Generators.
Context {G : RandomState}.
Local Open Scope R_scope.

(** A computation reads the generator state and either raises or returns
    a value with the next state. *)
Definition M (A : Type) : Type := rng -> result (A * rng).

Definition ret {A : Type} (a : A) : M A := fun g => Ok (a, g).

Definition bind {A B : Type} (m : M A) (k : A -> M B) : M B :=
  fun g =>
    match m g with
    | Ok (a, g') => k a g'
    | Raise e => Raise e
    end.

Definition raise {A : Type} (e : exception) : M A := fun _ => Raise e.

(** A step that cannot touch the generator: a table lookup. *)
Definition lift {A : Type} (r : result A) : M A :=
  fun g =>
    match r with
    | Ok a => Ok (a, g)
    | Raise e => Raise e
    end.

(** A draw: it cannot raise. *)
Definition draw {A : Type} (d : rng -> A * rng) : M A := fun g => Ok (d g).

Notation "'let*' x ':=' m 'in' k" := (bind m (fun x => k))
  (at level 10, x name, m at level 100, k at level 200).


(** [np.random.random()]. *)
Definition np_random_random : M R := draw random.

(** [size] Gaussian draws, taken from the generator one after the
    other. *)
Fixpoint normal_draws (loc scale : R) (size : nat) : M (list R) :=
  match size with
  | O => ret []
  | S n =>
      let* x := draw (normal loc scale) in
      let* xs := normal_draws loc scale n in
      ret (x :: xs)
  end.

(** [np.random.normal(loc, scale, size)]: a negative scale is refused
    before anything is drawn. *)
Definition np_random_normal (loc scale : R) (size : nat) : M (list R) :=
  if Rlt_dec scale 0 then raise (ValueError "scale < 0")
  else normal_draws loc scale size.

(** [np.random.choice(a)] on a sequence: one index draw; an empty
    sequence is refused. *)
Definition np_random_choice {A : Type} (a : list A) : M A :=
  match a with
  | [] => raise (ValueError "'a' cannot be empty unless no samples are taken")
  | _ =>
      let* i := draw (randint (length a)) in
      match a !! i with
      | Some x => ret x
      | None => raise (ValueError "index out of range")
      end
  end.

(** ** Galvanostatic charge-discharge curves *)

(** [np.array([0.5, 1.0, 1.5, 2.0, 2.5])]. *)
Definition gcd_current_densities : list R := [0.5; 1.0; 1.5; 2.0; 2.5].

(** The dictionary key [f'current_{current}'] of a current density of
    [gcd_current_densities]: the f-string renders the five floats as
    0.5, 1.0, 1.5, 2.0 and 2.5.  The loop runs over the densities paired
    with their keys. *)
Definition gcd_keyed_current_densities : list (string * R) :=
  zip ["current_0.5"; "current_1.0"; "current_1.5"; "current_2.0"; "current_2.5"]
      gcd_current_densities.

(** Lines 87 to 95: the capacity multiplier.  The electrode is looked up
    before the ligand. *)
Definition gcd_capacity_multiplier (params : MaterialParameters) : result R :=
  let metal_props := get_metal_properties (metal params) in
  let metal_factor := redox_factor metal_props in
  match getitem ELECTRODE_PROPERTIES (electrode params) with
  | Raise e => Raise e
  | Ok electrode_props =>
      let electrode_factor := capacity_boost electrode_props in
      match getitem LIGAND_PROPERTIES (ligand params) with
      | Raise e => Raise e
      | Ok ligand_props =>
          let ligand_factor := porosity ligand_props in
          let mof_factor := if is_mof params then 1.5 else 1.0 in
          let assembly_factor :=
            if String.eqb (assembly params) "Three-Electrode" then 1.1 else 1.0 in
          Ok (metal_factor * electrode_factor * ligand_factor * mof_factor
              * assembly_factor)
      end
  end.

(** Line 101. *)
Definition gcd_max_time (base_capacity : Z) (capacity_multiplier current : R) : R :=
  (IZR base_capacity * capacity_multiplier) / (current * 60).

(** Line 107: the voltage decay before the noise is added. *)
Definition gcd_voltage_decay (V_start V_end max_time : R) (time : list R) : list R :=
  map (fun t => V_end + (V_start - V_end) * exp (- t / (max_time / 3))) time.

(** Lines 100 to 113: the body of the loop, for one current density. *)
Definition gcd_discharge (base_capacity : Z) (capacity_multiplier current : R)
  : M GcdCurve :=
  let max_time := gcd_max_time base_capacity capacity_multiplier current in
  let time := np.linspace 0 max_time 200 in
  let* u_start := np_random_random in
  let V_start := 0.9 + 0.1 * u_start in
  let* u_end := np_random_random in
  let V_end := 0.1 + 0.05 * u_end in
  let voltage := gcd_voltage_decay V_start V_end max_time time in
  let* noise := np_random_normal 0 0.01 (length time) in
  ret {| time := time; voltage := np.add voltage noise |}.

(** The [for] loop over the current densities, filling [gcd_data]. *)
Fixpoint gcd_loop (base_capacity : Z) (capacity_multiplier : R)
    (currents : list (string * R)) (gcd_data : gmap string GcdCurve)
  : M (gmap string GcdCurve) :=
  match currents with
  | [] => ret gcd_data
  | (key, current) :: rest =>
      let* curve := gcd_discharge base_capacity capacity_multiplier current in
      gcd_loop base_capacity capacity_multiplier rest (<[key := curve]> gcd_data)
  end.

Definition generate_gcd_curve (params : MaterialParameters)
  : M (gmap string GcdCurve) :=
  let base_capacity := (100 * valency params)%Z in
  let* capacity_multiplier := lift (gcd_capacity_multiplier params) in
  gcd_loop base_capacity capacity_multiplier gcd_keyed_current_densities ∅.

(** What one entry of the output of [generate_gcd_curve] is: the result of
    the loop body for a current density of the list. *)
Definition discharge_of (bc : Z) (cm : R) (currents : list (string * R))
    (key : string) (curve : GcdCurve) : Prop :=
  exists (current : R) (g1 g2 : rng),
    (key, current) ∈ currents /\ gcd_discharge bc cm current g1 = Ok (curve, g2).

(** ** Rate capability *)

(** Lines 129 to 135.  The metal is read from the table itself, not
    through [get_metal_properties]. *)
Definition rate_max_capacity (params : MaterialParameters) : result R :=
  let base_capacity := (100 * valency params)%Z in
  match getitem METAL_PROPERTIES (metal params) with
  | Raise e => Raise e
  | Ok metal_props =>
      let metal_factor := redox_factor metal_props in
      match getitem ELECTRODE_PROPERTIES (electrode params) with
      | Raise e => Raise e
      | Ok electrode_props =>
          let electrode_factor := capacity_boost electrode_props in
          match getitem LIGAND_PROPERTIES (ligand params) with
          | Raise e => Raise e
          | Ok ligand_props =>
              let ligand_factor := porosity ligand_props in
              let mof_factor := if is_mof params then 1.5 else 1.0 in
              Ok (IZR base_capacity * metal_factor * electrode_factor
                  * ligand_factor * mof_factor)
          end
      end
  end.

(** Line 138: the power law before the noise is added. *)
Definition rate_power_law (max_capacity : R) (current_densities : list R) : list R :=
  map (fun c => max_capacity * Rpower (0.5 / c) 0.3) current_densities.

Definition generate_rate_capability (params : MaterialParameters)
  : M RateCapability :=
  let current_densities := np.linspace 0.5 5.0 10 in
  let* max_capacity := lift (rate_max_capacity params) in
  let capacity := rate_power_law max_capacity current_densities in
  let* noise := np_random_normal 0 (max_capacity * 0.02) (length capacity) in
  let capacity := np.add capacity noise in
  let capacity := np.clip capacity (Some 0) (Some max_capacity) in
  ret {| current_density := current_densities; specific_capacity := capacity |}.

(** ** Inelastic electron scattering spectrum *)

(** A Gaussian peak over the energy grid (lines 159 and 166). *)
Definition gaussian_peak (peak_intensity centre width : R) (energy : list R) : list R :=
  map (fun e => peak_intensity * exp (- (((e - centre) / width) ^ 2))) energy.

Definition generate_ies_spectrum (params : MaterialParameters) : M IesSpectrum :=
  let energy := np.linspace 0 50 500 in
  let metal_props := get_metal_properties (metal params) in
  let plasmon_energy := plasmon_peak metal_props in
  let* u1 := np_random_random in
  let plasmon_intensity := 0.8 + 0.2 * u1 in
  let* u2 := np_random_random in
  let plasmon_width := 2.0 + 0.5 * u2 in
  let plasmon := gaussian_peak plasmon_intensity plasmon_energy plasmon_width energy in
  let d_transition_energy := d_transition metal_props in
  let* u3 := np_random_random in
  let d_intensity := 0.4 + 0.1 * u3 in
  let* u4 := np_random_random in
  let d_width := 1.5 + 0.3 * u4 in
  let d_peak := gaussian_peak d_intensity d_transition_energy d_width energy in
  let background := map (fun e => 0.1 * exp (- e / 30)) energy in
  let spectrum := np.add (np.add plasmon d_peak) background in
  let* noise := np_random_normal 0 0.01 (length energy) in
  let spectrum := np.add spectrum noise in
  let spectrum := np.clip spectrum (Some 0) None in
  ret {| energy := energy; intensity := spectrum |}.

(** ** Electrochemical impedance spectroscopy *)

(** Lines 197 to 206: the impedance of the circuit at one frequency. *)
Definition eis_impedance (R_solution R_ct CPE_T CPE_P W : R) (f : R) : np.complex :=
  let omega := 2 * PI * f in
  let Z_CPE :=
    np.cdiv (np.of_real 1)
            (np.cmul (np.of_real CPE_T)
                     (np.cpow (np.cmul np.j (np.of_real omega)) CPE_P)) in
  let Z_W :=
    np.cmul (np.of_real (W / sqrt omega)) (np.csub (np.of_real 1) np.j) in
  np.cadd (np.of_real R_solution)
          (np.cdiv (np.of_real 1)
                   (np.cadd (np.of_real (1 / R_ct))
                            (np.cdiv (np.of_real 1) (np.cadd Z_CPE Z_W)))).

Definition generate_eis_nyquist (params : MaterialParameters) : M EisNyquist :=
  let freq := np.logspace (-2) 5 100 in
  let* u1 := np_random_random in
  let R_solution := 5 + 2 * u1 in
  let* electrode_props := lift (getitem ELECTRODE_PROPERTIES (electrode params)) in
  let* u2 := np_random_random in
  let R_ct := resistance electrode_props * (20 + 10 * u2) in
  let* u3 := np_random_random in
  let CPE_T := 0.001 + 0.0005 * u3 in
  let* u4 := np_random_random in
  let CPE_P := 0.85 + 0.1 * u4 in
  let* u5 := np_random_random in
  let W := 10 + 5 * u5 in
  let Z_total := map (eis_impedance R_solution R_ct CPE_T CPE_P W) freq in
  let Z_real := map np.real Z_total in
  let Z_imag := map (fun z => - np.imag z) Z_total in
  let* noise_real := np_random_normal 0 0.5 (length Z_real) in
  let Z_real := np.add Z_real noise_real in
  let* noise_imag := np_random_normal 0 0.5 (length Z_imag) in
  let Z_imag := np.add Z_imag noise_imag in
  ret {| z_real := Z_real; z_imag := Z_imag; frequency := freq |}.

(** ** One sample, and the dataset loop *)

Definition generate_sample : M Sample :=
  let* m := np_random_choice METALS in
  let* v := np_random_choice VALENCIES in
  let* l := np_random_choice LIGANDS in
  let* a := np_random_choice ASSEMBLIES in
  let* e := np_random_choice ELECTRODES in
  let* b := np_random_choice IS_MOF in
  let params :=
    {| metal := m; valency := v; ligand := l; assembly := a; electrode := e;
       is_mof := b |} in
  let* out_gcd := generate_gcd_curve params in
  let* out_rate := generate_rate_capability params in
  let* out_ies := generate_ies_spectrum params in
  let* out_eis := generate_eis_nyquist params in
  ret {| inputs := params;
         outputs := {| gcd := out_gcd; rate_capability := out_rate;
                       ies := out_ies; eis := out_eis |} |}.

(** ** Feature encoder *)

(** One [for] loop of the encoder: for every category of the universe,
    in order, [features.append(1.0 if value == category else 0.0)]. *)
Definition append_one_hot (value : string) (universe : list string)
    (features : list R) : list R :=
  foldl (fun acc category =>
           (acc ++ [if String.eqb value category then 1.0 else 0.0])%list)
        features universe.

(** The one-hot row of a value over a universe: what one such loop adds. *)
Definition one_hot (value : string) (universe : list string) : list R :=
  map (fun category => if String.eqb value category then 1.0 else 0.0) universe.

Definition create_feature_vector (params : MaterialParameters) : list R :=
  let features := [] in
  let features := append_one_hot (metal params) METALS features in
  let features := (features ++ [IZR (valency params) / 3.0])%list in
  let features := append_one_hot (ligand params) LIGANDS features in
  let features :=
    (features
     ++ [if String.eqb (assembly params) "Three-Electrode" then 1.0 else 0.0])%list in
  let features := append_one_hot (electrode params) ELECTRODES features in
  let features := (features ++ [if is_mof params then 1.0 else 0.0])%list in
  features.

(** The three one-hot blocks of a feature vector, by position. *)
Definition metal_block (features : list R) : list R :=
  take (length METALS) features.
Definition ligand_block (features : list R) : list R :=
  take (length LIGANDS) (drop (length METALS + 1) features).
Definition electrode_block (features : list R) : list R :=
  take (length ELECTRODES)
       (drop (length METALS + 1 + length LIGANDS + 1) features).

(** Python's [sum] of a list of floats. *)
Definition sum_floats (l : list R) : R := foldl Rplus 0 l.

(** ** The dataset loop *)

(** A row of the tabular export: a copy of the inputs with the feature
    vector added under the key [features]. *)
Record FeatureRow : Type := {
  row_inputs : MaterialParameters;
  features : list R
}.

(** The loop of [main]: [num_samples] samples, appended in order. *)
Fixpoint dataset_loop (num_samples : nat) (dataset : list Sample)
    (feature_data : list FeatureRow) : M (list Sample * list FeatureRow) :=
  match num_samples with
  | O => ret (dataset, feature_data)
  | S n =>
      let* sample := generate_sample in
      let features := create_feature_vector (inputs sample) in
      let feature_row := {| row_inputs := inputs sample; features := features |} in
      dataset_loop n (dataset ++ [sample])%list (feature_data ++ [feature_row])%list
  end.

End Generators.

(** ** The dashboard script, [streamlit_app.py]

    The functions of the dashboard that compute: the metal lookup, the
    literature lookup and the simulation behind the plots.  The page itself
    (widgets, figures, downloads) is not modelled. *)

Module app.

(** [str.upper()] on a string of ASCII characters: the letters a to z
    lose 32, everything else stays.  (Python maps the letters outside ASCII
    by the Unicode tables; the properties below are stated for ASCII
    strings.) *)
Definition upper_ascii (c : Ascii.ascii) : Ascii.ascii :=
  let n := Ascii.nat_of_ascii c in
  if ((97 <=? n)%nat && (n <=? 122)%nat)%bool then Ascii.ascii_of_nat (n - 32)
  else c.

Fixpoint upper (s : string) : string :=
  match s with
  | EmptyString => EmptyString
  | String c rest => String (upper_ascii c) (upper rest)
  end.

Fixpoint is_ascii (s : string) : bool :=
  match s with
  | EmptyString => true
  | String c rest => (Ascii.nat_of_ascii c <? 128)%nat && is_ascii rest
  end.

(** [needle in haystack] on strings: [needle] occurs in [haystack] as a
    contiguous run. *)
Fixpoint contains (needle haystack : string) : bool :=
  if String.prefix needle haystack then true
  else match haystack with
       | EmptyString => false
       | String _ rest => contains needle rest
       end.

Record MetalEntry : Type := {
  redox_factor : R;
  conductivity : R;
  color : string
}.

Definition METAL_DATABASE_items : list (string * MetalEntry) :=
  [("Cu", {| redox_factor := 1.2; conductivity := 1.15; color := "#b87333" |});
   ("Ni", {| redox_factor := 1.1; conductivity := 1.10; color := "#8c92ac" |});
   ("Co", {| redox_factor := 1.15; conductivity := 1.12; color := "#0047ab" |});
   ("Zn", {| redox_factor := 0.95; conductivity := 1.05; color := "#7a7f84" |});
   ("Fe", {| redox_factor := 1.05; conductivity := 1.08; color := "#b7410e" |});
   ("Mn", {| redox_factor := 1.0; conductivity := 1.06; color := "#9c6f7b" |});
   ("Ag", {| redox_factor := 1.25; conductivity := 1.20; color := "#c0c0c0" |});
   ("Au", {| redox_factor := 1.18; conductivity := 1.18; color := "#ffd700" |});
   ("Pd", {| redox_factor := 1.12; conductivity := 1.14; color := "#ccc5b9" |});
   ("Pt", {| redox_factor := 1.22; conductivity := 1.17; color := "#e5e4e2" |})]%R.

Definition METAL_DATABASE : gmap string MetalEntry :=
  list_to_map METAL_DATABASE_items.

Definition default_metal_entry : MetalEntry :=
  {| redox_factor := 1.0; conductivity := 1.0; color := "#808080" |}%R.

Definition get_metal_properties (metal : string) : MetalEntry :=
  match METAL_DATABASE !! upper metal with
  | Some entry => entry
  | None => default_metal_entry
  end.

Record ScholarReference : Type := {
  paper : string;
  authors : string;
  journal : string;
  doi : string;
  gcd_capacity : Z;
  eis_resistance : R;
  retention : R;
  citation_count : Z
}.

Definition SCHOLAR_REFERENCES_items : list (string * ScholarReference) :=
  [("Cu-BDC",
    {| paper := "Copper-Based MOFs for Supercapacitors (2021)";
       authors := "Wang et al."; journal := "ACS Applied Materials";
       doi := "10.1021/acsami.1c00234"; gcd_capacity := 285;
       eis_resistance := 12.5; retention := 0.48; citation_count := 156 |});
   ("Ni-BTC",
    {| paper := "Nickel MOF Electrodes for Energy Storage (2020)";
       authors := "Chen et al."; journal := "Energy Storage Materials";
       doi := "10.1016/j.ensm.2020.08.012"; gcd_capacity := 245;
       eis_resistance := 15.2; retention := 0.42; citation_count := 98 |});
   ("Co-DOBDC",
    {| paper := "Cobalt-Organic Framework Supercapacitors (2022)";
       authors := "Li et al."; journal := "Advanced Functional Materials";
       doi := "10.1002/adfm.202201456"; gcd_capacity := 268;
       eis_resistance := 13.8; retention := 0.45; citation_count := 124 |});
   ("Zn-TPA",
    {| paper := "Zinc-Based MOFs for Electrochemical Applications (2019)";
       authors := "Kumar et al."; journal := "Journal of Materials Chemistry A";
       doi := "10.1039/C9TA02345B"; gcd_capacity := 198;
       eis_resistance := 18.5; retention := 0.36; citation_count := 87 |});
   ("Cu-4,4-bipyridine",
    {| paper :=
         "Electrochemical Investigation of Nitrogen-Containing Copper Complex (2024)";
       authors := "Research Team"; journal := "Journal of Energy Storage";
       doi := "10.1016/j.est.2024.100000"; gcd_capacity := 315;
       eis_resistance := 2.42; retention := 0.92; citation_count := 45 |})]%R.

Definition SCHOLAR_REFERENCES : gmap string ScholarReference :=
  list_to_map SCHOLAR_REFERENCES_items.

(** The ligand name the lookup key is built from. *)
Definition clean_ligand (ligand : string) : string :=
  if contains "BDC" ligand then "BDC"
  else if contains "BTC" ligand then "BTC"
  else if contains "DOBDC" ligand then "DOBDC"
  else if contains "TPA" ligand then "TPA"
  else ligand.

(** [SCHOLAR_REFERENCES.get(key, None)]: [None] is the missing reference. *)
Definition get_scholar_reference (metal ligand : string) : option ScholarReference :=
  let key := metal ++ "-" ++ clean_ligand ligand in
  SCHOLAR_REFERENCES !! key.

Definition electrode_boost : gmap string R :=
  list_to_map [("Nickel Foam", 1.3); ("Glassy Carbon", 1.0);
               ("Carbon Cloth", 1.15); ("Stainless Steel", 1.1)]%R.

Definition current_densities : list R :=
  [0.25; 0.5; 0.75; 1.0; 1.25; 1.5; 1.75; 2.0; 2.25]%R.

Record Nyquist : Type := { z_real : list R; z_imag : list R }.

Record Results : Type := {
  gcd_data : list (R * GcdCurve);
  result_current_densities : list R;
  specific_capacities : list R;
  specific_capacitances : list R;
  eis_before : Nyquist;
  eis_after : Nyquist;
  Rs_before : R;
  Rs_after : R;
  Rct_before : R;
  Rct_after : R
}.

Section Simulation.
Context {G : RandomState}.
Local Open Scope R_scope.

Notation "'let*' x ':=' m 'in' k" := (bind m (fun x => k))
  (at level 10, x name, m at level 100, k at level 200).

(** The capacity multiplier of the simulation: the electrode is looked up
    in a dictionary without a fallback. *)
Definition capacity_mult (params : MaterialParameters) : result R :=
  let metal_props := get_metal_properties (metal params) in
  match getitem electrode_boost (electrode params) with
  | Raise e => Raise e
  | Ok boost =>
      Ok (redox_factor metal_props * boost * (if is_mof params then 1.5 else 1.0))
  end.

Definition discharge_time (base_capacity : Z) (mult current time_range_max : R) : R :=
  Rmin ((IZR base_capacity * mult) / (current * 60)) time_range_max.

(** The voltage of one curve before the noise: a straight line from
    [v_max] down to [v_min]. *)
Definition linear_decay (v_min v_max max_time : R) (time : list R) : list R :=
  map (fun t => v_max - (v_max - v_min) * (t / max_time)) time.

(** The loop over the current densities.  [gcd_data] is a dictionary keyed
    by the current density; the densities of the list are distinct, so it
    is kept as the list of its items in insertion order.  [Q_s / (v_max -
    v_min)] divides two Python floats: it raises [ZeroDivisionError] when
    the window is empty, in the first turn, after the noise of the first
    curve has been drawn. *)
Fixpoint simulation_loop (base_capacity : Z) (mult : R) (voltage_range : R * R)
    (time_range_max : R) (currents : list R)
    (gcd_data : list (R * GcdCurve)) (capacities capacitances : list R)
  : M (list (R * GcdCurve) * list R * list R) :=
  match currents with
  | [] => ret (gcd_data, capacities, capacitances)
  | current :: rest =>
      let max_time := discharge_time base_capacity mult current time_range_max in
      let time := np.linspace 0 max_time 200 in
      let v_min := fst voltage_range in
      let v_max := snd voltage_range in
      let voltage := linear_decay v_min v_max max_time time in
      let* noise := np_random_normal 0 0.005 (length time) in
      let voltage := np.add voltage noise in
      let voltage := np.clip voltage (Some v_min) (Some v_max) in
      let Q_s := current * max_time * 3600 / 1000 in
      if Req_dec_T (v_max - v_min) 0 then raise ZeroDivisionError
      else
        let C_s := Q_s / (v_max - v_min) in
        simulation_loop base_capacity mult voltage_range time_range_max rest
          (gcd_data ++ [(current, {| time := time; voltage := voltage |})])%list
          (capacities ++ [Q_s])%list (capacitances ++ [C_s])%list
  end.

(** What one turn of the loop stores for a current density, given the
    noise it drew: the curve, the specific capacity [Q_s] and the specific
    capacitance [C_s]. *)
Definition curve_at (base_capacity : Z) (mult : R) (voltage_range : R * R)
    (time_range_max current : R) (noise : list R) : GcdCurve :=
  let max_time := discharge_time base_capacity mult current time_range_max in
  let time := np.linspace 0 max_time 200 in
  {| time := time;
     voltage :=
       np.clip (np.add (linear_decay (fst voltage_range) (snd voltage_range)
                          max_time time) noise)
               (Some (fst voltage_range)) (Some (snd voltage_range)) |}.

Definition charge_at (base_capacity : Z) (mult time_range_max current : R) : R :=
  current * discharge_time base_capacity mult current time_range_max * 3600 / 1000.

Definition MOF_style_simulation (params : MaterialParameters)
    (voltage_range : R * R) (time_range_max : R) : M Results :=
  let metal_props := get_metal_properties (metal params) in
  let base_capacity := (100 * valency params)%Z in
  let* mult := lift (capacity_mult params) in
  let* curves :=
    simulation_loop base_capacity mult voltage_range time_range_max
      current_densities [] [] [] in
  let freq_before := np.logspace (-2) 5 50 in
  let omega := map (fun f => 2 * PI * f) freq_before in
  let* u := np_random_random in
  let Rs := 1.5 + 0.5 * u in
  let Rct_b := 5.0 + 3.0 / conductivity metal_props in
  let Rct_a := 2.0 + 1.0 / conductivity metal_props in
  let W := 8.0 in
  let Z_real_before :=
    map (fun w => Rs + Rct_b / (1 + (w * 0.01) ^ 2) + W / sqrt w) omega in
  let Z_imag_before :=
    map (fun w => (Rct_b * w * 0.01) / (1 + (w * 0.01) ^ 2) + W / sqrt w) omega in
  let Z_real_after :=
    map (fun w => Rs * 0.95 + Rct_a / (1 + (w * 0.015) ^ 2) + W * 0.8 / sqrt w)
        omega in
  let Z_imag_after :=
    map (fun w => (Rct_a * w * 0.015) / (1 + (w * 0.015) ^ 2) + W * 0.8 / sqrt w)
        omega in
  ret {| gcd_data := fst (fst curves);
         result_current_densities := current_densities;
         specific_capacities := snd (fst curves);
         specific_capacitances := snd curves;
         eis_before := {| z_real := Z_real_before; z_imag := Z_imag_before |};
         eis_after := {| z_real := Z_real_after; z_imag := Z_imag_after |};
         Rs_before := Rs;
         Rs_after := Rs * 0.95;
         Rct_before := Rct_b;
         Rct_after := Rct_a |}.
End Simulation.
End app.

(** The default arguments of [MOF_style_simulation]. *)
Definition default_voltage_range : R * R := (0.0, 0.6)%R.
Definition default_time_range_max : R := 500%R.

(** ** Concrete parameter sets *)

(** The scenario of the specification: a copper MOF on nickel foam. *)
Definition cu_bdc_params : MaterialParameters :=
  {| metal := "Cu"; valency := 2; ligand := "BDC"; assembly := "Two-Electrode";
     electrode := "Nickel Foam"; is_mof := true |}.

(** A metal the table does not have. *)
Definition xx_params : MaterialParameters :=
  {| metal := "Xx"; valency := 1; ligand := "BTC"; assembly := "Two-Electrode";
     electrode := "Glassy Carbon"; is_mof := false |}.

(** A ligand outside the ligand set. *)
Definition bpy_params : MaterialParameters :=
  {| metal := "Cu"; valency := 2; ligand := "4,4-bipyridine";
     assembly := "Two-Electrode"; electrode := "Nickel Foam"; is_mof := true |}.

(** An electrode outside the electrode set. *)
Definition gold_foil_params : MaterialParameters :=
  {| metal := "Cu"; valency := 2; ligand := "BDC"; assembly := "Two-Electrode";
     electrode := "Gold Foil"; is_mof := true |}.

(** ** Predicates of the specification *)

(** A sequence that never goes down: an earlier entry is at most a later
    one. *)
Definition nondecreasing (l : list R) : Prop :=
  forall (i k : nat) (x y : R),
    (i <= k)%nat -> l !! i = Some x -> l !! k = Some y -> (x <= y)%R.

(** The keys [generate_gcd_curve] fills. *)
Definition gcd_keys : list string := gcd_keyed_current_densities.*1.

(** A sequence that never goes up. *)
Definition nonincreasing (l : list R) : Prop :=
  forall (i k : nat) (x y : R),
    (i <= k)%nat -> l !! i = Some x -> l !! k = Some y -> (y <= x)%R.

(** The largest [np.int64].  A valency drawn by [generate_sample] is an
    [np.int64], and so is [100 * valency]; a valency passed in by hand is a
    Python integer, which the product with a float converts.  The integers
    of the generators are those of the code as long as [100 * valency]
    stays within this bound. *)
Definition int64_max : Z := 9223372036854775807.

(** The row [main] adds to [feature_data] for a sample: a copy of the
    inputs with the feature vector under [features]. *)
Definition feature_row_of (sample : Sample) : FeatureRow :=
  {| row_inputs := inputs sample;
     features := create_feature_vector (inputs sample) |}.

(** ** What [main] does around the loop

    [main] creates the output directory, runs the loop and hands the
    dataset to [json.dump].  The values it hands over are Python values:
    the inputs drawn by [np.random.choice] are NumPy scalars ([np.str_],
    [np.int64], [np.bool_]), the sequences made by [tolist()] are lists of
    Python floats, and the rest are dictionaries with string keys. *)

#[local] Unset Elimination Schemes.
#[local] Set Elimination Schemes.








Section Script.
Context {G : RandomState}.

Notation "'let*' x ':=' m 'in' k" := (bind m (fun x => k))
  (at level 10, x name, m at level 100, k at level 200).


End Script.

(** * Properties *)

(** ** The property tables *)

Ltac split_elem_of H :=
  repeat (apply elem_of_cons in H as [H | H]; [subst |]);
  try (apply elem_of_nil in H; destruct H).

Lemma METAL_PROPERTIES_keys : METAL_PROPERTIES_items.*1 = METALS.
Proof. reflexivity. Qed.

Lemma ELECTRODE_PROPERTIES_keys : ELECTRODE_PROPERTIES_items.*1 = ELECTRODES.
Proof. reflexivity. Qed.

Lemma LIGAND_PROPERTIES_keys : LIGAND_PROPERTIES_items.*1 = LIGANDS.
Proof. reflexivity. Qed.

Lemma METAL_PROPERTIES_unknown (m : string) :
  m ∉ METALS -> METAL_PROPERTIES !! m = None.
Proof.
  intros Hm. apply not_elem_of_list_to_map_1.
  now rewrite METAL_PROPERTIES_keys.
Qed.

Lemma METAL_PROPERTIES_known (m : string) :
  m ∈ METALS ->
  exists props, METAL_PROPERTIES !! m = Some props /\ (0 < redox_factor props)%R.
Proof.
  intros Hm. unfold METALS in Hm. split_elem_of Hm;
    (eexists; split; [reflexivity | cbn; lra]).
Qed.

Lemma ELECTRODE_PROPERTIES_unknown (e : string) :
  e ∉ ELECTRODES -> ELECTRODE_PROPERTIES !! e = None.
Proof.
  intros He. apply not_elem_of_list_to_map_1.
  now rewrite ELECTRODE_PROPERTIES_keys.
Qed.

Lemma ELECTRODE_PROPERTIES_known (e : string) :
  e ∈ ELECTRODES ->
  exists props, ELECTRODE_PROPERTIES !! e = Some props /\ (0 < capacity_boost props)%R.
Proof.
  intros He. unfold ELECTRODES in He. split_elem_of He;
    (eexists; split; [reflexivity | cbn; lra]).
Qed.

Lemma LIGAND_PROPERTIES_unknown (l : string) :
  l ∉ LIGANDS -> LIGAND_PROPERTIES !! l = None.
Proof.
  intros Hl. apply not_elem_of_list_to_map_1.
  now rewrite LIGAND_PROPERTIES_keys.
Qed.

Lemma LIGAND_PROPERTIES_known (l : string) :
  l ∈ LIGANDS ->
  exists props, LIGAND_PROPERTIES !! l = Some props /\ (0 < porosity props)%R.
Proof.
  intros Hl. unfold LIGANDS in Hl. split_elem_of Hl;
    (eexists; split; [reflexivity | cbn; lra]).
Qed.

Example get_metal_properties_Cu :
  get_metal_properties "Cu" = mk_metal 1.2 1.15 22 5.
Proof. reflexivity. Qed.

Example getitem_missing_electrode :
  getitem ELECTRODE_PROPERTIES "Gold Foil" = Raise (KeyError "Gold Foil").
Proof. reflexivity. Qed.

Example create_feature_vector_cu_bdc :
  create_feature_vector cu_bdc_params
  = [1.0; 0.0; 0.0; 0.0; 0.0; 0.0; 0.0; 0.0; 0.0; 0.0; 0.0; 0.0; 0.0; 0.0; 0.0;
     (2 / 3.0); 1.0; 0.0; 0.0; 0.0; 0.0; 0.0; 0.0; 1.0; 0.0; 0.0; 0.0; 1.0]%R.
Proof. reflexivity. Qed.

Lemma valid_paramsb_spec (p : MaterialParameters) :
  valid_paramsb p = true <-> valid_params p.
Proof.
  unfold valid_paramsb, valid_params.
  rewrite !andb_true_iff, !bool_decide_eq_true. tauto.
Qed.

(** ** The feature encoder *)

Section Encoder.
Local Open Scope R_scope.

Lemma append_one_hot_app (value : string) (universe : list string) (features : list R) :
  append_one_hot value universe features = (features ++ one_hot value universe)%list.
Proof.
  unfold append_one_hot, one_hot.
  revert features. induction universe as [|c cs IH]; intros features; cbn.
  - now rewrite app_nil_r.
  - rewrite IH, <- app_assoc. reflexivity.
Qed.

Lemma create_feature_vector_layout (p : MaterialParameters) :
  create_feature_vector p
  = (one_hot (metal p) METALS
     ++ (IZR (valency p) / 3.0)
     :: one_hot (ligand p) LIGANDS
     ++ (if String.eqb (assembly p) "Three-Electrode" then 1.0 else 0.0)
     :: one_hot (electrode p) ELECTRODES
     ++ [if is_mof p then 1.0 else 0.0])%list.
Proof.
  unfold create_feature_vector.
  rewrite !append_one_hot_app. cbn [app].
  repeat rewrite <- app_assoc. reflexivity.
Qed.

Lemma one_hot_length (value : string) (universe : list string) :
  length (one_hot value universe) = length universe.
Proof. apply length_map. Qed.




Lemma metal_block_one_hot (p : MaterialParameters) :
  metal_block (create_feature_vector p) = one_hot (metal p) METALS.
Proof. rewrite create_feature_vector_layout. reflexivity. Qed.

Lemma ligand_block_one_hot (p : MaterialParameters) :
  ligand_block (create_feature_vector p) = one_hot (ligand p) LIGANDS.
Proof. rewrite create_feature_vector_layout. reflexivity. Qed.

Lemma electrode_block_one_hot (p : MaterialParameters) :
  electrode_block (create_feature_vector p) = one_hot (electrode p) ELECTRODES.
Proof. rewrite create_feature_vector_layout. reflexivity. Qed.

Lemma create_feature_vector_length (p : MaterialParameters) :
  length (create_feature_vector p) = 28%nat.
Proof. rewrite create_feature_vector_layout. reflexivity. Qed.

Lemma one_hot_metal_sum (m : string) :
  m ∈ METALS -> sum_floats (one_hot m METALS) = 1.0.
Proof.
  intros Hm. unfold METALS in Hm. split_elem_of Hm;
    (unfold sum_floats; cbn; lra).
Qed.

Lemma one_hot_ligand_sum (l : string) :
  l ∈ LIGANDS -> sum_floats (one_hot l LIGANDS) = 1.0.
Proof.
  intros Hl. unfold LIGANDS in Hl. split_elem_of Hl;
    (unfold sum_floats; cbn; lra).
Qed.

Lemma one_hot_electrode_sum (e : string) :
  e ∈ ELECTRODES -> sum_floats (one_hot e ELECTRODES) = 1.0.
Proof.
  intros He. unfold ELECTRODES in He. split_elem_of He;
    (unfold sum_floats; cbn; lra).
Qed.

(** C4: for every valid parameter set the encoder, a pure function of the
    parameters (it takes no generator state and cannot raise), returns a
    vector of length |METALS| + |LIGANDS| + |ELECTRODES| + 3 = 28 whose
    metal, ligand and electrode one-hot blocks each sum to exactly 1.0. *)
Theorem create_feature_vector_valid (p : MaterialParameters) :
  valid_params p ->
  length (create_feature_vector p)
  = (length METALS + length LIGANDS + length ELECTRODES + 3)%nat
  /\ length (create_feature_vector p) = 28%nat
  /\ sum_floats (metal_block (create_feature_vector p)) = 1.0
  /\ sum_floats (ligand_block (create_feature_vector p)) = 1.0
  /\ sum_floats (electrode_block (create_feature_vector p)) = 1.0.
Proof.
  intros (Hm & _ & Hl & _ & He).
  rewrite metal_block_one_hot, ligand_block_one_hot, electrode_block_one_hot.
  rewrite create_feature_vector_length.
  repeat split.
  - now apply one_hot_metal_sum.
  - now apply one_hot_ligand_sum.
  - now apply one_hot_electrode_sum.
Qed.

End Encoder.

Lemma cu_bdc_params_valid : valid_params cu_bdc_params.
Proof. apply valid_paramsb_spec. vm_compute. reflexivity. Qed.

Lemma create_feature_vector_valid_witness :
  valid_params cu_bdc_params
  /\ length (create_feature_vector cu_bdc_params) = 28%nat
  /\ sum_floats (metal_block (create_feature_vector cu_bdc_params)) = 1.0%R.
Proof.
  assert (Hv : valid_params cu_bdc_params)
    by (apply valid_paramsb_spec; vm_compute; reflexivity).
  split; [exact Hv|].
  destruct (create_feature_vector_valid cu_bdc_params Hv) as (_ & Hlen & Hm & _).
  split; assumption.
Defined.


(** ** NumPy grids, clipping and element-wise sums *)

Section Numpy.
Local Open Scope R_scope.

Lemma linspace_length (start stop : R) (num : nat) :
  length (np.linspace start stop num) = num.
Proof. unfold np.linspace. now rewrite length_map, length_seq. Qed.

Lemma linspace_lookup (start stop : R) (num i : nat) :
  (i < num)%nat ->
  np.linspace start stop num !! i
  = Some (if ((1 <? num)%nat && (i =? num - 1)%nat)%bool then stop
          else INR i * ((stop - start) / INR (num - 1)) + start).
Proof.
  intros Hi. unfold np.linspace.
  rewrite list_lookup_fmap, lookup_seq_lt by assumption. reflexivity.
Qed.

(** Every entry of a grid of two points or more lies on the line from
    [start] to [stop]. *)
Lemma linspace_lookup_affine (start stop : R) (num i : nat) (x : R) :
  (1 < num)%nat ->
  np.linspace start stop num !! i = Some x ->
  x = INR i * ((stop - start) / INR (num - 1)) + start.
Proof.
  intros Hnum Hx.
  assert (Hi : (i < num)%nat).
  { apply lookup_lt_Some in Hx. now rewrite linspace_length in Hx. }
  rewrite linspace_lookup in Hx by assumption. injection Hx as <-.
  destruct (Nat.ltb_spec 1 num) as [_|]; [|lia].
  destruct (Nat.eqb_spec i (num - 1)) as [->|]; cbn [andb]; [|reflexivity].
  assert (INR (num - 1) <> 0) by (apply not_0_INR; lia).
  field. assumption.
Qed.

Lemma linspace_head (start stop : R) (num : nat) :
  (0 < num)%nat -> head (np.linspace start stop num) = Some start.
Proof.
  intros Hnum. rewrite head_lookup, linspace_lookup by assumption.
  f_equal. destruct num as [|[|n]]; [lia | cbn; lra |].
  replace (0 =? S (S n) - 1)%nat with false by (symmetry; apply Nat.eqb_neq; lia).
  rewrite andb_false_r. cbn [INR]. lra.
Qed.

Lemma linspace_last (start stop : R) (num : nat) :
  (1 < num)%nat -> last (np.linspace start stop num) = Some stop.
Proof.
  intros Hnum. rewrite last_lookup, linspace_length.
  replace (Nat.pred num) with (num - 1)%nat by lia.
  rewrite linspace_lookup by lia.
  destruct (Nat.ltb_spec 1 num) as [_|]; [|lia].
  now rewrite Nat.eqb_refl.
Qed.

Lemma linspace_nondecreasing (start stop : R) (num : nat) :
  (1 < num)%nat -> start <= stop -> nondecreasing (np.linspace start stop num).
Proof.
  intros Hnum Hle i k x y Hik Hx Hy.
  apply linspace_lookup_affine in Hx; [|assumption].
  apply linspace_lookup_affine in Hy; [|assumption].
  subst x y.
  assert (0 < INR (num - 1)) by (apply lt_0_INR; lia).
  assert (0 <= (stop - start) / INR (num - 1)).
  { apply Rmult_le_pos; [lra|]. left. now apply Rinv_0_lt_compat. }
  assert (INR i <= INR k) by now apply le_INR.
  nra.
Qed.

Lemma add_length (a b : list R) :
  length a = length b -> length (np.add a b) = length a.
Proof. intros H. unfold np.add. rewrite length_zip_with. lia. Qed.

Lemma add_length_eq (a b : list R) (n : nat) :
  length a = n -> length b = n -> length (np.add a b) = n.
Proof. intros Ha Hb. rewrite add_length; congruence. Qed.

Lemma clip_length (a : list R) (lo hi : option R) :
  length (np.clip a lo hi) = length a.
Proof. apply length_map. Qed.

Lemma clip_floor (a : list R) (lo : R) :
  Forall (fun x => lo <= x) (np.clip a (Some lo) None).
Proof.
  unfold np.clip. apply Forall_fmap, Forall_forall. intros x _. cbn.
  apply Rmax_r.
Qed.

Lemma clip_range (a : list R) (lo hi : R) :
  lo <= hi -> Forall (fun x => lo <= x <= hi) (np.clip a (Some lo) (Some hi)).
Proof.
  intros Hle. unfold np.clip. apply Forall_fmap, Forall_forall. intros x _. cbn.
  split.
  - apply Rmin_glb; [apply Rmax_r | assumption].
  - apply Rmin_r.
Qed.
End Numpy.

(** ** Computations and draws *)

Section GeneratorProperties.
Context {G : RandomState}.
Local Open Scope R_scope.

Lemma bind_Ok {A B : Type} (m : M A) (k : A -> M B) (g g' : rng) (a : A) :
  m g = Ok (a, g') -> bind m k g = k a g'.
Proof. intros H. unfold bind. now rewrite H. Qed.

Lemma bind_Raise {A B : Type} (m : M A) (k : A -> M B) (g : rng) (e : exception) :
  m g = Raise e -> bind m k g = Raise e.
Proof. intros H. unfold bind. now rewrite H. Qed.

Lemma bind_draw {A B : Type} (d : rng -> A * rng) (k : A -> M B) (g : rng) :
  bind (draw d) k g = k (fst (d g)) (snd (d g)).
Proof. unfold bind, draw. now destruct (d g). Qed.

Lemma bind_lift_Ok {A B : Type} (r : result A) (k : A -> M B) (g : rng) (a : A) :
  r = Ok a -> bind (lift r) k g = k a g.
Proof. intros ->. reflexivity. Qed.

Lemma bind_lift_Raise {A B : Type} (r : result A) (k : A -> M B) (g : rng)
    (e : exception) :
  r = Raise e -> bind (lift r) k g = Raise e.
Proof. intros ->. reflexivity. Qed.

Lemma normal_draws_Ok (loc scale : R) (size : nat) (g : rng) :
  exists (xs : list R) (g' : rng),
    normal_draws loc scale size g = Ok (xs, g') /\ length xs = size.
Proof.
  revert g. induction size as [|n IH]; intros g; cbn [normal_draws].
  - exists [], g. split; reflexivity.
  - rewrite bind_draw.
    destruct (IH (snd (normal loc scale g))) as (xs & g' & Hxs & Hlen).
    exists (fst (normal loc scale g) :: xs), g'.
    rewrite (bind_Ok _ _ _ _ _ Hxs). cbn. split; [reflexivity | lia].
Qed.

(** [np.random.normal] with a scale that is not negative returns, and
    returns that many draws. *)
Lemma np_random_normal_Ok (loc scale : R) (size : nat) (g : rng) :
  (0 <= scale)%R ->
  exists (xs : list R) (g' : rng),
    np_random_normal loc scale size g = Ok (xs, g') /\ length xs = size.
Proof.
  intros Hscale. unfold np_random_normal.
  destruct (Rlt_dec scale 0) as [Hneg | _]; [lra|].
  apply normal_draws_Ok.
Qed.

Lemma np_random_normal_negative (loc scale : R) (size : nat) (g : rng) :
  (scale < 0)%R ->
  np_random_normal loc scale size g = Raise (ValueError "scale < 0").
Proof.
  intros Hscale. unfold np_random_normal.
  destruct (Rlt_dec scale 0) as [_ | Hpos]; [reflexivity | lra].
Qed.

(** ** The GCD generator *)

(** The loop body returns for every current density: the time grid runs
    from 0 to the discharge time, the voltage is the decay curve between
    the two drawn voltages plus 200 noise terms. *)
Lemma gcd_discharge_Ok (base_capacity : Z) (cm current : R) (g : rng) :
  let max_time := gcd_max_time base_capacity cm current in
  let V_start := 0.9 + 0.1 * fst (random g) in
  let V_end := 0.1 + 0.05 * fst (random (snd (random g))) in
  exists (noise : list R) (g' : rng),
    length noise = 200%nat
    /\ gcd_discharge base_capacity cm current g
       = Ok ({| time := np.linspace 0 max_time 200;
                voltage :=
                  np.add (gcd_voltage_decay V_start V_end max_time
                            (np.linspace 0 max_time 200)) noise |}, g').
Proof.
  intros max_time V_start V_end. unfold gcd_discharge, np_random_random.
  rewrite !bind_draw.
  destruct (np_random_normal_Ok 0 0.01
              (length (np.linspace 0 max_time 200))
              (snd (random (snd (random g)))) ltac:(lra))
    as (noise & g' & Hn & Hlen).
  exists noise, g'. split.
  - now rewrite Hlen, linspace_length.
  - fold max_time. rewrite (bind_Ok _ _ _ _ _ Hn). reflexivity.
Qed.

(** The same with the noise named: it is what [np.random.normal] returns
    on the state left by the two voltage draws. *)
Lemma gcd_discharge_draws (base_capacity : Z) (cm current : R) (g : rng) :
  let max_time := gcd_max_time base_capacity cm current in
  let V_start := 0.9 + 0.1 * fst (random g) in
  let V_end := 0.1 + 0.05 * fst (random (snd (random g))) in
  exists (noise : list R) (g' : rng),
    np_random_normal 0 0.01 200 (snd (random (snd (random g)))) = Ok (noise, g')
    /\ length noise = 200%nat
    /\ gcd_discharge base_capacity cm current g
       = Ok ({| time := np.linspace 0 max_time 200;
                voltage :=
                  np.add (gcd_voltage_decay V_start V_end max_time
                            (np.linspace 0 max_time 200)) noise |}, g').
Proof.
  intros max_time V_start V_end.
  destruct (np_random_normal_Ok 0 0.01 200 (snd (random (snd (random g))))
              ltac:(lra)) as (noise & g' & Hn & Hlen).
  exists noise, g'. split; [exact Hn|]. split; [exact Hlen|].
  unfold gcd_discharge, np_random_random. rewrite !bind_draw.
  fold max_time. rewrite linspace_length, (bind_Ok _ _ _ _ _ Hn). reflexivity.
Qed.

Lemma gcd_loop_cons (bc : Z) (cm : R) (key : string) (current : R)
    (rest : list (string * R)) (data : gmap string GcdCurve) (g g' : rng)
    (curve : GcdCurve) :
  gcd_discharge bc cm current g = Ok (curve, g') ->
  gcd_loop bc cm ((key, current) :: rest) data g
  = gcd_loop bc cm rest (<[key := curve]> data) g'.
Proof. intros H. cbn [gcd_loop]. now rewrite (bind_Ok _ _ _ _ _ H). Qed.

(** The loop returns; it leaves the other keys alone and every key of the
    list holds a curve of the loop body. *)
Lemma gcd_loop_Ok (bc : Z) (cm : R) (currents : list (string * R))
    (data : gmap string GcdCurve) (g : rng) :
  exists (data' : gmap string GcdCurve) (g' : rng),
    gcd_loop bc cm currents data g = Ok (data', g')
    /\ (forall key, key ∉ currents.*1 -> data' !! key = data !! key)
    /\ (forall key, key ∈ currents.*1 ->
          exists curve, data' !! key = Some curve
                        /\ discharge_of bc cm currents key curve).
Proof.
  revert data g. induction currents as [|[k c] rest IH]; intros data g.
  - exists data, g. split; [reflexivity|]. split; [reflexivity|].
    intros key Hkey. cbn in Hkey. now apply elem_of_nil in Hkey.
  - destruct (gcd_discharge_Ok bc cm c g) as (noise & g1 & _ & Hd).
    cbv zeta in Hd.
    match type of Hd with
    | _ = Ok (?cv, _) =>
        destruct (IH (<[k := cv]> data) g1) as (data' & g' & Hloop & Hother & Hkeys)
    end.
    exists data', g'. rewrite (gcd_loop_cons _ _ _ _ _ _ _ _ _ Hd).
    split; [exact Hloop|]. split.
    + intros key Hkey. cbn in Hkey. apply not_elem_of_cons in Hkey as [Hne Hkey].
      rewrite (Hother key Hkey). now apply lookup_insert_ne.
    + intros key Hkey.
      destruct (decide (key ∈ rest.*1)) as [Hin | Hnin].
      * destruct (Hkeys key Hin) as (curve & Hlk & c' & g2 & g3 & Hc' & Hrun).
        exists curve. split; [exact Hlk|]. exists c', g2, g3.
        split; [apply elem_of_cons; now right | exact Hrun].
      * cbn in Hkey. apply elem_of_cons in Hkey as [-> | Hkey]; [|contradiction].
        eexists. split.
        -- rewrite (Hother k Hnin). apply lookup_insert_eq.
        -- exists c, g, g1. split; [apply elem_of_cons; now left | exact Hd].
Qed.
End GeneratorProperties.

Section GcdProperties.
Context {G : RandomState}.
Local Open Scope R_scope.

Lemma gcd_voltage_decay_length (V_start V_end max_time : R) (time : list R) :
  length (gcd_voltage_decay V_start V_end max_time time) = length time.
Proof. apply length_map. Qed.

Lemma gcd_discharge_shape (bc : Z) (cm current : R) (g1 g2 : rng) (curve : GcdCurve) :
  gcd_discharge bc cm current g1 = Ok (curve, g2) ->
  time curve = np.linspace 0 (gcd_max_time bc cm current) 200
  /\ length (voltage curve) = 200%nat.
Proof.
  intros Hrun.
  destruct (gcd_discharge_Ok bc cm current g1) as (noise & g' & Hlen & Hd).
  cbv zeta in Hd.
  assert (Hcurve : curve = {| time := np.linspace 0 (gcd_max_time bc cm current) 200;
                              voltage := voltage curve |}
                   /\ exists decay, length decay = 200%nat
                                    /\ voltage curve = np.add decay noise).
  { rewrite Hd in Hrun.
    assert (Hc : forall (c1 c2 : GcdCurve) (s1 s2 : rng),
               Ok (c1, s1) = Ok (c2, s2) -> c1 = c2) by (intros; congruence).
    apply Hc in Hrun. subst curve. split; [reflexivity|].
    eexists. split; [|reflexivity].
    now rewrite gcd_voltage_decay_length, linspace_length. }
  destruct Hcurve as (Hc & decay & Hdecay & Hv). split.
  - now rewrite Hc.
  - rewrite Hv, add_length; congruence.
Qed.

Lemma gcd_current_positive (key : string) (current : R) :
  (key, current) ∈ gcd_keyed_current_densities -> 0 < current.
Proof.
  intros H. cbn in H. split_elem_of H; injection H as _ ->; lra.
Qed.

(** For parameters of the parameter spaces the lookups of the multiplier
    succeed, and the multiplier is positive. *)
Lemma gcd_capacity_multiplier_valid (p : MaterialParameters) :
  valid_params p ->
  exists cm, gcd_capacity_multiplier p = Ok cm /\ 0 < cm.
Proof.
  intros (Hm & _ & Hl & _ & He).
  destruct (METAL_PROPERTIES_known _ Hm) as (mp & Hmp & Hmpos).
  destruct (ELECTRODE_PROPERTIES_known _ He) as (ep & Hep & Hepos).
  destruct (LIGAND_PROPERTIES_known _ Hl) as (lp & Hlp & Hlpos).
  unfold gcd_capacity_multiplier, get_metal_properties, getitem.
  rewrite Hmp, Hep, Hlp. eexists. split; [reflexivity|].
  repeat apply Rmult_lt_0_compat; try assumption.
  - destruct (is_mof p); lra.
  - destruct (String.eqb _ _); lra.
Qed.

Lemma valency_positive (p : MaterialParameters) :
  valid_params p -> (1 <= valency p <= 3)%Z.
Proof.
  intros (_ & Hv & _). unfold VALENCIES in Hv. split_elem_of Hv; rewrite Hv; lia.
Qed.

Lemma gcd_max_time_nonneg (bc : Z) (cm current : R) :
  (0 <= bc)%Z -> 0 < cm -> 0 < current -> 0 <= gcd_max_time bc cm current.
Proof.
  intros Hbc Hcm Hc. unfold gcd_max_time.
  apply IZR_le in Hbc.
  apply Rmult_le_pos; [nra|]. left. apply Rinv_0_lt_compat. lra.
Qed.

(** C8: for every valid parameter set the GCD generator returns a map
    with exactly the keys of its five current densities, and in every
    entry the time sequence starts at 0, never decreases, and is as long as
    the voltage sequence. *)
Theorem generate_gcd_curve_time_grid (p : MaterialParameters) (g : rng) :
  valid_params p ->
  exists (gcd_data : gmap string GcdCurve) (g' : rng),
    generate_gcd_curve p g = Ok (gcd_data, g')
    /\ (forall key, key ∈ gcd_keys <-> is_Some (gcd_data !! key))
    /\ (forall key curve,
          gcd_data !! key = Some curve ->
          head (time curve) = Some 0
          /\ nondecreasing (time curve)
          /\ length (time curve) = length (voltage curve)).
Proof.
  intros Hvalid.
  destruct (gcd_capacity_multiplier_valid p Hvalid) as (cm & Hcm & Hpos).
  pose proof (valency_positive p Hvalid) as Hval.
  destruct (gcd_loop_Ok (100 * valency p) cm gcd_keyed_current_densities ∅ g)
    as (data & g' & Hloop & Hother & Hkeys).
  exists data, g'. split.
  { unfold generate_gcd_curve. now rewrite (bind_lift_Ok _ _ _ _ Hcm). }
  assert (Hin : forall key, is_Some (data !! key) -> key ∈ gcd_keys).
  { intros key [curve Hc].
    destruct (decide (key ∈ gcd_keys)) as [|Hn]; [assumption|].
    rewrite (Hother key Hn), lookup_empty in Hc. discriminate. }
  split.
  - intros key. split; [|apply Hin].
    intros Hk. destruct (Hkeys key Hk) as (curve & Hc & _). now exists curve.
  - intros key curve Hc.
    destruct (Hkeys key (Hin key (ex_intro _ curve Hc)))
      as (curve' & Hc' & current & g1 & g2 & Hcur & Hrun).
    assert (curve' = curve) as -> by congruence.
    apply gcd_discharge_shape in Hrun as [Htime Hvolt].
    apply gcd_current_positive in Hcur.
    assert (0 <= gcd_max_time (100 * valency p) cm current)
      by (apply gcd_max_time_nonneg; [lia | assumption | assumption]).
    rewrite Htime, Hvolt. split; [|split].
    + apply linspace_head. lia.
    + apply linspace_nondecreasing; [lia | assumption].
    + apply linspace_length.
Qed.
End GcdProperties.

(** The concrete generator keeps NumPy's promises. *)
Lemma lcg_random_state_laws : RandomStateLaws lcg_random_state.
Proof.
  split.
  - intros g. cbn.
    pose proof (Z.mod_pos_bound g 1000 eq_refl) as [Hlo Hhi].
    apply IZR_le in Hlo. apply IZR_lt in Hhi. lra.
  - intros n g Hn. cbn.
    pose proof (Z.mod_pos_bound g (Z.of_nat n) ltac:(lia)). lia.
Qed.

Lemma generate_gcd_curve_time_grid_witness :
  valid_params cu_bdc_params
  /\ exists (gcd_data : gmap string GcdCurve) (g' : Z),
       generate_gcd_curve (G := lcg_random_state) cu_bdc_params 42%Z
       = Ok (gcd_data, g')
       /\ (forall key, key ∈ gcd_keys <-> is_Some (gcd_data !! key))
       /\ (forall key curve,
             gcd_data !! key = Some curve ->
             head (time curve) = Some 0%R
             /\ nondecreasing (time curve)
             /\ length (time curve) = length (voltage curve)).
Proof.
  assert (Hv : valid_params cu_bdc_params)
    by (apply valid_paramsb_spec; vm_compute; reflexivity).
  split; [exact Hv|].
  exact (generate_gcd_curve_time_grid (G := lcg_random_state) cu_bdc_params 42%Z Hv).
Defined.

Section GcdScenario.
Context {G : RandomState} {HL : RandomStateLaws G}.
Local Open Scope R_scope.

Lemma gcd_keyed_current_densities_cons :
  gcd_keyed_current_densities
  = ("current_0.5", 0.5)
    :: [("current_1.0", 1.0); ("current_1.5", 1.5); ("current_2.0", 2.0);
        ("current_2.5", 2.5)].
Proof. reflexivity. Qed.

(** The first point of the decay curve is the start voltage. *)
Lemma gcd_voltage_decay_head (V_start V_end max_time : R) (num : nat) :
  (0 < num)%nat ->
  head (gcd_voltage_decay V_start V_end max_time (np.linspace 0 max_time num))
  = Some (V_end + (V_start - V_end) * exp (- 0 / (max_time / 3))).
Proof.
  intros Hnum. unfold gcd_voltage_decay.
  pose proof (linspace_head 0 max_time num Hnum) as Hhead.
  destruct (np.linspace 0 max_time num) as [|t ts]; [discriminate|].
  cbn in *. congruence.
Qed.

(** C7: for the copper scenario the capacity multiplier is the product
    1.2 * 1.3 * 1.1 * 1.5 * 1.0, which is 2.574 up to rounding, and the
    discharge time at the current density 0.5 is
    (100 * 2 * multiplier) / (0.5 * 60), which is 17.16 up to rounding (both
    to within 1e-12).  For every generator state the entry [current_0.5] of
    the output has the time grid of 200 points from 0 to that discharge
    time, which starts at 0, and its voltage is the decay curve between the
    two voltages drawn first from that state, plus the noise drawn next;
    the first point of the decay curve, the voltage before the noise, is
    the drawn start voltage up to rounding, and the drawn start voltage
    lies between 0.9 and 1.0. *)
Theorem generate_gcd_curve_copper_scenario (g : rng) :
  let capacity_multiplier := 1.2 * 1.3 * 1.1 * 1.5 * 1.0 in
  let max_time := (100 * 2 * capacity_multiplier) / (0.5 * 60) in
  let V_start := 0.9 + 0.1 * fst (random g) in
  let V_end := 0.1 + 0.05 * fst (random (snd (random g))) in
  gcd_capacity_multiplier cu_bdc_params = Ok capacity_multiplier
  /\ Rabs (capacity_multiplier - 2.574) <= 1e-12
  /\ gcd_max_time (100 * valency cu_bdc_params) capacity_multiplier 0.5 = max_time
  /\ Rabs (max_time - 17.16) <= 1e-12
  /\ 0.9 <= V_start <= 1.0
  /\ exists (noise : list R) (g1 : rng) (gcd_data : gmap string GcdCurve)
            (g' : rng) (curve : GcdCurve) (v0 : R),
       np_random_normal 0 0.01 200 (snd (random (snd (random g)))) = Ok (noise, g1)
       /\ generate_gcd_curve cu_bdc_params g = Ok (gcd_data, g')
       /\ gcd_data !! "current_0.5" = Some curve
       /\ time curve = np.linspace 0 max_time 200
       /\ head (time curve) = Some 0
       /\ voltage curve
          = np.add (gcd_voltage_decay V_start V_end max_time (time curve)) noise
       /\ head (gcd_voltage_decay V_start V_end max_time (time curve)) = Some v0
       /\ Rabs (v0 - V_start) <= 1e-12.
Proof.
  intros cm max_time V_start V_end.
  assert (Hcm : gcd_capacity_multiplier cu_bdc_params = Ok cm) by reflexivity.
  assert (Hval : cm = 2.574) by (subst cm; lra).
  assert (Hmt : gcd_max_time (100 * valency cu_bdc_params) cm 0.5 = max_time).
  { unfold gcd_max_time, max_time. cbn [valency cu_bdc_params].
    now rewrite mult_IZR. }
  assert (Hmtv : max_time = 17.16) by (subst max_time cm; lra).
  split; [exact Hcm|].
  split; [rewrite Hval, Rminus_diag, Rabs_R0; lra|].
  split; [exact Hmt|].
  split; [rewrite Hmtv, Rminus_diag, Rabs_R0; lra|].
  split; [pose proof (random_range g); subst V_start; lra|].
  destruct (gcd_discharge_draws (100 * valency cu_bdc_params) cm 0.5 g)
    as (noise & g1 & Hn & _ & Hd).
  cbv zeta in Hd. rewrite Hmt in Hd. fold V_start V_end in Hd.
  match type of Hd with
  | _ = Ok (?cv, _) =>
      destruct (gcd_loop_Ok (100 * valency cu_bdc_params) cm
                  [("current_1.0", 1.0); ("current_1.5", 1.5);
                   ("current_2.0", 2.0); ("current_2.5", 2.5)]
                  (<["current_0.5" := cv]> ∅) g1)
        as (data & g' & Hloop & Hother & _);
      exists noise, g1, data, g', cv
  end.
  exists (V_end + (V_start - V_end) * exp (- 0 / (max_time / 3))).
  cbn [time voltage].
  split; [exact Hn|].
  split.
  { unfold generate_gcd_curve. rewrite (bind_lift_Ok _ _ _ _ Hcm).
    rewrite gcd_keyed_current_densities_cons, (gcd_loop_cons _ _ _ _ _ _ _ _ _ Hd).
    exact Hloop. }
  split.
  { rewrite Hother; [apply lookup_insert_eq|].
    apply (proj1 (bool_decide_eq_false _)). vm_compute. reflexivity. }
  split; [reflexivity|].
  split; [apply linspace_head; lia|].
  split; [reflexivity|].
  split; [apply gcd_voltage_decay_head; lia|].
  replace (- 0 / (max_time / 3)) with 0 by (rewrite Hmtv; lra).
  rewrite exp_0.
  replace (V_end + (V_start - V_end) * 1 - V_start) with 0 by lra.
  rewrite Rabs_R0. lra.
Qed.
End GcdScenario.

Lemma generate_gcd_curve_copper_scenario_witness :
  RandomStateLaws lcg_random_state
  /\ gcd_capacity_multiplier cu_bdc_params = Ok (1.2 * 1.3 * 1.1 * 1.5 * 1.0)%R
  /\ (Rabs ((100 * 2 * (1.2 * 1.3 * 1.1 * 1.5 * 1.0)) / (0.5 * 60) - 17.16)
      <= 1e-12)%R.
Proof.
  split; [exact lcg_random_state_laws|].
  destruct (generate_gcd_curve_copper_scenario
              (G := lcg_random_state) (HL := lcg_random_state_laws) 42%Z)
    as (Hcm & _ & _ & Hmt & _).
  split; assumption.
Defined.

(** ** The rate-capability generator *)

Section RateProperties.
Context {G : RandomState}.
Local Open Scope R_scope.

(** Once the three lookups have succeeded the generator returns: the fixed
    grid of ten current densities and, for each, the clipped capacity. *)
Lemma generate_rate_capability_shape (p : MaterialParameters) (g : rng) (mc : R) :
  rate_max_capacity p = Ok mc -> 0 <= mc ->
  exists (noise : list R) (g' : rng),
    length noise = 10%nat
    /\ generate_rate_capability p g
       = Ok ({| current_density := np.linspace 0.5 5.0 10;
                specific_capacity :=
                  np.clip (np.add (rate_power_law mc (np.linspace 0.5 5.0 10)) noise)
                          (Some 0) (Some mc) |}, g').
Proof.
  intros Hmc Hpos. unfold generate_rate_capability.
  rewrite (bind_lift_Ok _ _ _ _ Hmc).
  destruct (np_random_normal_Ok 0 (mc * 0.02)
              (length (rate_power_law mc (np.linspace 0.5 5.0 10))) g ltac:(lra))
    as (noise & g' & Hn & Hlen).
  exists noise, g'. split.
  - rewrite Hlen. unfold rate_power_law. now rewrite length_map, linspace_length.
  - rewrite (bind_Ok _ _ _ _ _ Hn). reflexivity.
Qed.

(** For parameters of the parameter spaces the three lookups succeed and
    the capacity ceiling is the product of the factors. *)
Lemma rate_max_capacity_valid (p : MaterialParameters) :
  valid_params p ->
  exists (mp : MetalProperties) (ep : ElectrodeProperties) (lp : LigandProperties),
    METAL_PROPERTIES !! metal p = Some mp
    /\ ELECTRODE_PROPERTIES !! electrode p = Some ep
    /\ LIGAND_PROPERTIES !! ligand p = Some lp
    /\ rate_max_capacity p
       = Ok (IZR (100 * valency p) * redox_factor mp * capacity_boost ep
             * porosity lp * (if is_mof p then 1.5 else 1.0))
    /\ 0 < redox_factor mp * capacity_boost ep * porosity lp
           * (if is_mof p then 1.5 else 1.0).
Proof.
  intros (Hm & _ & Hl & _ & He).
  destruct (METAL_PROPERTIES_known _ Hm) as (mp & Hmp & Hmpos).
  destruct (ELECTRODE_PROPERTIES_known _ He) as (ep & Hep & Hepos).
  destruct (LIGAND_PROPERTIES_known _ Hl) as (lp & Hlp & Hlpos).
  exists mp, ep, lp. repeat (split; [assumption|]). split.
  - unfold rate_max_capacity, getitem. now rewrite Hmp, Hep, Hlp.
  - repeat apply Rmult_lt_0_compat; try assumption. destruct (is_mof p); lra.
Qed.

Lemma rate_max_capacity_valid_positive (p : MaterialParameters) :
  valid_params p -> exists mc, rate_max_capacity p = Ok mc /\ 0 < mc.
Proof.
  intros Hvalid.
  destruct (rate_max_capacity_valid p Hvalid)
    as (mp & ep & lp & _ & _ & _ & Hmc & Hpos).
  pose proof (valency_positive p Hvalid) as [Hlo _].
  eexists. split; [exact Hmc|].
  assert (1 <= IZR (valency p)) by (apply IZR_le; lia).
  rewrite mult_IZR. nra.
Qed.

(** C5: for every valid parameter set the rate-capability generator
    returns ten capacities, one per current density of its grid, and each
    lies between 0 and max_capacity = 100 * valency * redox_factor(metal)
    * capacity_boost(electrode) * porosity(ligand) * (1.5 if is_mof else
    1.0), the factors read from the tables without an assembly factor. *)
Theorem generate_rate_capability_clamped (p : MaterialParameters) (g : rng) :
  valid_params p ->
  exists (mp : MetalProperties) (ep : ElectrodeProperties) (lp : LigandProperties)
         (out : RateCapability) (g' : rng),
    METAL_PROPERTIES !! metal p = Some mp
    /\ ELECTRODE_PROPERTIES !! electrode p = Some ep
    /\ LIGAND_PROPERTIES !! ligand p = Some lp
    /\ generate_rate_capability p g = Ok (out, g')
    /\ current_density out = np.linspace 0.5 5.0 10
    /\ length (specific_capacity out) = 10%nat
    /\ Forall (fun capacity =>
                 0 <= capacity
                 <= 100 * IZR (valency p) * redox_factor mp * capacity_boost ep
                    * porosity lp * (if is_mof p then 1.5 else 1.0))
              (specific_capacity out).
Proof.
  intros Hvalid.
  destruct (rate_max_capacity_valid p Hvalid)
    as (mp & ep & lp & Hmp & Hep & Hlp & Hmc & Hpos).
  pose proof (valency_positive p Hvalid) as Hval.
  assert (Hmcpos : 0 <= IZR (100 * valency p) * redox_factor mp * capacity_boost ep
                        * porosity lp * (if is_mof p then 1.5 else 1.0)).
  { assert (1 <= IZR (valency p)) by (apply IZR_le; lia). rewrite mult_IZR. nra. }
  destruct (generate_rate_capability_shape p g _ Hmc Hmcpos)
    as (noise & g' & Hlen & Hrun).
  eexists mp, ep, lp, _, g'.
  repeat (split; [eassumption|]). cbn [current_density specific_capacity].
  split; [reflexivity|]. split.
  - rewrite clip_length, add_length; unfold rate_power_law;
      rewrite length_map, linspace_length; congruence.
  - rewrite mult_IZR in *.
    assert (1 <= IZR (valency p)) by (apply IZR_le; lia).
    eapply Forall_impl.
    + apply clip_range. nra.
    + intros x Hx. cbn beta in Hx. lra.
Qed.
End RateProperties.

Lemma generate_rate_capability_clamped_witness :
  valid_params cu_bdc_params
  /\ exists (out : RateCapability) (g' : Z),
       generate_rate_capability (G := lcg_random_state) cu_bdc_params 42%Z
       = Ok (out, g')
       /\ length (specific_capacity out) = 10%nat.
Proof.
  assert (Hv : valid_params cu_bdc_params)
    by (apply valid_paramsb_spec; vm_compute; reflexivity).
  split; [exact Hv|].
  destruct (generate_rate_capability_clamped (G := lcg_random_state)
              cu_bdc_params 42%Z Hv)
    as (mp & ep & lp & out & g' & _ & _ & _ & Hrun & _ & Hlen & _).
  exists out, g'. split; assumption.
Defined.

(** ** The IES generator *)

Section IesProperties.
Context {G : RandomState}.
Local Open Scope R_scope.

Lemma gaussian_peak_length (a c w : R) (energy : list R) :
  length (gaussian_peak a c w energy) = length energy.
Proof. apply length_map. Qed.

(** The IES generator looks nothing up that can be missing: it returns for
    every parameter set, with the fixed energy grid and the clipped
    spectrum. *)
Lemma generate_ies_spectrum_shape (p : MaterialParameters) (g : rng) :
  exists (spectrum : list R) (g' : rng),
    length spectrum = 500%nat
    /\ generate_ies_spectrum p g
       = Ok ({| energy := np.linspace 0 50 500;
                intensity := np.clip spectrum (Some 0) None |}, g').
Proof.
  unfold generate_ies_spectrum, np_random_random. rewrite !bind_draw.
  match goal with
  | |- context [bind (np_random_normal ?loc ?scale ?size) _ ?s] =>
      destruct (np_random_normal_Ok loc scale size s ltac:(lra)) as (noise & g' & Hn & Hlen);
      rewrite (bind_Ok _ _ _ _ _ Hn)
  end.
  eexists _, g'. split; [|reflexivity].
  rewrite linspace_length in Hlen.
  repeat apply add_length_eq;
    rewrite ?gaussian_peak_length, ?length_map, ?linspace_length;
    reflexivity || assumption.
Qed.

(** C6: for every parameter set, whether or not the table knows its
    metal, the IES generator returns; the energy grid is the 500-point
    grid from 0 to 50, and every intensity is at least 0. *)
Theorem generate_ies_spectrum_nonnegative (p : MaterialParameters) (g : rng) :
  exists (out : IesSpectrum) (g' : rng),
    generate_ies_spectrum p g = Ok (out, g')
    /\ energy out = np.linspace 0 50 500
    /\ length (energy out) = 500%nat
    /\ head (energy out) = Some 0
    /\ last (energy out) = Some 50
    /\ nondecreasing (energy out)
    /\ length (intensity out) = 500%nat
    /\ Forall (fun x => 0 <= x) (intensity out).
Proof.
  destruct (generate_ies_spectrum_shape p g) as (spectrum & g' & Hlen & Hrun).
  eexists _, g'. split; [exact Hrun|]. cbn [energy intensity].
  split; [reflexivity|].
  split; [apply linspace_length|].
  split; [apply linspace_head; lia|].
  split; [apply linspace_last; lia|].
  split; [apply linspace_nondecreasing; [lia | lra]|].
  split; [now rewrite clip_length|].
  apply clip_floor.
Qed.
End IesProperties.

(** ** The EIS generator *)

Section EisProperties.
Context {G : RandomState}.
Local Open Scope R_scope.

Lemma logspace_length (start stop : R) (num : nat) :
  length (np.logspace start stop num) = num.
Proof. unfold np.logspace. now rewrite length_map, linspace_length. Qed.

(** Once the electrode lookup has succeeded the EIS generator returns three
    sequences over the fixed frequency grid. *)
Lemma generate_eis_nyquist_shape (p : MaterialParameters) (g : rng)
    (ep : ElectrodeProperties) :
  ELECTRODE_PROPERTIES !! electrode p = Some ep ->
  exists (Z_real Z_imag : list R) (g' : rng),
    length Z_real = 100%nat /\ length Z_imag = 100%nat
    /\ generate_eis_nyquist p g
       = Ok ({| z_real := Z_real; z_imag := Z_imag;
                frequency := np.logspace (-2) 5 100 |}, g').
Proof.
  intros Hep. unfold generate_eis_nyquist, np_random_random.
  rewrite bind_draw.
  rewrite (bind_lift_Ok _ _ _ ep) by (unfold getitem; now rewrite Hep).
  rewrite !bind_draw.
  match goal with
  | |- context [bind (np_random_normal ?loc ?scale ?size) _ ?s] =>
      destruct (np_random_normal_Ok loc scale size s ltac:(lra)) as (n1 & g1 & Hn1 & Hlen1);
      rewrite (bind_Ok _ _ _ _ _ Hn1)
  end.
  match goal with
  | |- context [bind (np_random_normal ?loc ?scale ?size) _ ?s] =>
      destruct (np_random_normal_Ok loc scale size s ltac:(lra)) as (n2 & g2 & Hn2 & Hlen2);
      rewrite (bind_Ok _ _ _ _ _ Hn2)
  end.
  eexists _, _, g2. split; [|split; [|reflexivity]].
  - rewrite !length_map, logspace_length in Hlen1.
    apply add_length_eq; rewrite ?length_map, ?logspace_length;
      reflexivity || assumption.
  - rewrite !length_map, logspace_length in Hlen2.
    apply add_length_eq; rewrite ?length_map, ?logspace_length;
      reflexivity || assumption.
Qed.

(** C9: for every valid parameter set the EIS generator returns
    [z_real], [z_imag] and [frequency] of one length, and the frequency is
    the logarithmic grid of 100 points from 10^-2 to 10^5. *)
Theorem generate_eis_nyquist_lengths (p : MaterialParameters) (g : rng) :
  valid_params p ->
  exists (out : EisNyquist) (g' : rng),
    generate_eis_nyquist p g = Ok (out, g')
    /\ length (z_real out) = length (frequency out)
    /\ length (z_imag out) = length (frequency out)
    /\ frequency out = np.logspace (-2) 5 100
    /\ length (frequency out) = 100%nat
    /\ head (frequency out) = Some (Rpower 10 (-2))
    /\ last (frequency out) = Some (Rpower 10 5).
Proof.
  intros (_ & _ & _ & _ & He).
  destruct (ELECTRODE_PROPERTIES_known _ He) as (ep & Hep & _).
  destruct (generate_eis_nyquist_shape p g ep Hep)
    as (Z_real & Z_imag & g' & Hre & Him & Hrun).
  eexists _, g'. split; [exact Hrun|]. cbn [z_real z_imag frequency].
  rewrite logspace_length.
  repeat (split; [congruence|]).
  unfold np.logspace. split.
  - rewrite head_lookup, list_lookup_fmap, <- head_lookup, linspace_head by lia.
    reflexivity.
  - rewrite fmap_last, linspace_last by lia. reflexivity.
Qed.
End EisProperties.

Lemma generate_eis_nyquist_lengths_witness :
  valid_params cu_bdc_params
  /\ exists (out : EisNyquist) (g' : Z),
       generate_eis_nyquist (G := lcg_random_state) cu_bdc_params 42%Z = Ok (out, g')
       /\ length (z_real out) = length (frequency out)
       /\ length (z_imag out) = length (frequency out).
Proof.
  assert (Hv : valid_params cu_bdc_params)
    by (apply valid_paramsb_spec; vm_compute; reflexivity).
  split; [exact Hv|].
  destruct (generate_eis_nyquist_lengths (G := lcg_random_state)
              cu_bdc_params 42%Z Hv)
    as (out & g' & Hrun & Hre & Him & _).
  exists out, g'. repeat split; assumption.
Defined.

(** ** Lookups that miss *)

Section MissingKeys.
Context {G : RandomState}.
Local Open Scope R_scope.

(** A metal the table does not have gets the default bundle. *)
Lemma get_metal_properties_unknown (m : string) :
  METAL_PROPERTIES !! m = None ->
  get_metal_properties m = default_metal_properties
  /\ redox_factor (get_metal_properties m) = 1.0
  /\ conductivity (get_metal_properties m) = 1.0
  /\ plasmon_peak (get_metal_properties m) = 20.0
  /\ d_transition (get_metal_properties m) = 6.0.
Proof.
  intros Hm. unfold get_metal_properties. rewrite Hm. repeat split.
Qed.

(** The GCD generator needs the electrode and the ligand only: it returns
    for every metal. *)
Lemma generate_gcd_curve_any_metal (p : MaterialParameters) (g : rng) :
  electrode p ∈ ELECTRODES -> ligand p ∈ LIGANDS ->
  exists (gcd_data : gmap string GcdCurve) (g' : rng),
    generate_gcd_curve p g = Ok (gcd_data, g').
Proof.
  intros He Hl.
  destruct (ELECTRODE_PROPERTIES_known _ He) as (ep & Hep & _).
  destruct (LIGAND_PROPERTIES_known _ Hl) as (lp & Hlp & _).
  assert (Hcm : exists cm, gcd_capacity_multiplier p = Ok cm).
  { unfold gcd_capacity_multiplier, getitem. rewrite Hep, Hlp. now eexists. }
  destruct Hcm as (cm & Hcm).
  destruct (gcd_loop_Ok (100 * valency p) cm gcd_keyed_current_densities ∅ g)
    as (data & g' & Hloop & _).
  exists data, g'. unfold generate_gcd_curve.
  now rewrite (bind_lift_Ok _ _ _ _ Hcm).
Qed.

(** The rate-capability generator subscripts the metal table: a metal the
    table does not have raises [KeyError]. *)
Lemma generate_rate_capability_unknown_metal (p : MaterialParameters) (g : rng) :
  METAL_PROPERTIES !! metal p = None ->
  generate_rate_capability p g = Raise (KeyError (metal p)).
Proof.
  intros Hm. unfold generate_rate_capability.
  apply bind_lift_Raise. unfold rate_max_capacity, getitem. now rewrite Hm.
Qed.

(** C1, on the code: for the unknown metal Xx the lookup returns the
    default bundle (1.0, 1.0, 20.0, 6.0), the GCD generator and the IES
    generator return, but the rate-capability generator raises
    [KeyError 'Xx'] instead of using the defaults. *)
Theorem unknown_metal_rate_capability_raises (g : rng) :
  METAL_PROPERTIES !! "Xx" = None
  /\ get_metal_properties "Xx" = mk_metal 1.0 1.0 20.0 6.0
  /\ (exists gcd_data g', generate_gcd_curve xx_params g = Ok (gcd_data, g'))
  /\ (exists out g', generate_ies_spectrum xx_params g = Ok (out, g'))
  /\ generate_rate_capability xx_params g = Raise (KeyError "Xx").
Proof.
  assert (Hxx : METAL_PROPERTIES !! "Xx" = None) by (vm_compute; reflexivity).
  split; [exact Hxx|]. split.
  { now apply get_metal_properties_unknown. }
  split.
  { apply generate_gcd_curve_any_metal;
      apply (proj1 (bool_decide_eq_true _)); vm_compute; reflexivity. }
  split.
  { destruct (generate_ies_spectrum_shape xx_params g) as (sp & g' & _ & Hrun).
    eauto. }
  now apply (generate_rate_capability_unknown_metal xx_params).
Qed.

(** The first lookup of the GCD generator that misses decides the
    exception. *)
Lemma generate_gcd_curve_missing_key (p : MaterialParameters) (g : rng) :
  ligand p ∉ LIGANDS \/ electrode p ∉ ELECTRODES ->
  generate_gcd_curve p g
  = Raise (KeyError (if decide (electrode p ∈ ELECTRODES) then ligand p
                     else electrode p)).
Proof.
  intros Hmiss. unfold generate_gcd_curve. apply bind_lift_Raise.
  unfold gcd_capacity_multiplier, getitem.
  destruct (decide (electrode p ∈ ELECTRODES)) as [He | He].
  - destruct (ELECTRODE_PROPERTIES_known _ He) as (ep & -> & _).
    destruct Hmiss as [Hl | ?]; [|contradiction].
    now rewrite (LIGAND_PROPERTIES_unknown _ Hl).
  - now rewrite (ELECTRODE_PROPERTIES_unknown _ He).
Qed.

Lemma generate_rate_capability_missing_key (p : MaterialParameters) (g : rng) :
  ligand p ∉ LIGANDS \/ electrode p ∉ ELECTRODES ->
  generate_rate_capability p g
  = Raise (KeyError (if decide (metal p ∈ METALS) then
                       if decide (electrode p ∈ ELECTRODES) then ligand p
                       else electrode p
                     else metal p)).
Proof.
  intros Hmiss. unfold generate_rate_capability. apply bind_lift_Raise.
  unfold rate_max_capacity, getitem.
  destruct (decide (metal p ∈ METALS)) as [Hm | Hm].
  - destruct (METAL_PROPERTIES_known _ Hm) as (mp & -> & _).
    destruct (decide (electrode p ∈ ELECTRODES)) as [He | He].
    + destruct (ELECTRODE_PROPERTIES_known _ He) as (ep & -> & _).
      destruct Hmiss as [Hl | ?]; [|contradiction].
      now rewrite (LIGAND_PROPERTIES_unknown _ Hl).
    + now rewrite (ELECTRODE_PROPERTIES_unknown _ He).
  - now rewrite (METAL_PROPERTIES_unknown _ Hm).
Qed.

Lemma generate_eis_nyquist_missing_key (p : MaterialParameters) (g : rng) :
  electrode p ∉ ELECTRODES ->
  generate_eis_nyquist p g = Raise (KeyError (electrode p)).
Proof.
  intros He. unfold generate_eis_nyquist, np_random_random. rewrite bind_draw.
  apply bind_lift_Raise. unfold getitem.
  now rewrite (ELECTRODE_PROPERTIES_unknown _ He).
Qed.

(** C2, as the code has it: when the ligand or the electrode is outside
    its set, every generator that looks it up raises and returns nothing,
    and the exception is Python's [KeyError] carrying the first key whose
    lookup missed: in the GCD generator the electrode, else the ligand; in
    the rate-capability generator the metal, else the electrode, else the
    ligand; in the EIS generator, which reads the electrode only, the
    electrode. *)
Theorem generators_missing_category_KeyError (p : MaterialParameters) (g : rng) :
  ligand p ∉ LIGANDS \/ electrode p ∉ ELECTRODES ->
  (exists key,
      generate_gcd_curve p g = Raise (KeyError key)
      /\ exception_class (KeyError key) = "KeyError"
      /\ key = (if decide (electrode p ∈ ELECTRODES) then ligand p else electrode p))
  /\ (exists key,
         generate_rate_capability p g = Raise (KeyError key)
         /\ exception_class (KeyError key) = "KeyError"
         /\ key = (if decide (metal p ∈ METALS) then
                     if decide (electrode p ∈ ELECTRODES) then ligand p
                     else electrode p
                   else metal p))
  /\ (electrode p ∉ ELECTRODES ->
      generate_eis_nyquist p g = Raise (KeyError (electrode p))).
Proof.
  intros Hmiss. split; [|split].
  - eexists. split; [now apply generate_gcd_curve_missing_key|]. now split.
  - eexists. split; [now apply generate_rate_capability_missing_key|]. now split.
  - apply generate_eis_nyquist_missing_key.
Qed.
End MissingKeys.

Lemma generators_missing_category_KeyError_witness :
  (ligand bpy_params ∉ LIGANDS \/ electrode bpy_params ∉ ELECTRODES)
  /\ generate_gcd_curve (G := lcg_random_state) bpy_params 42%Z
     = Raise (KeyError "4,4-bipyridine")
  /\ generate_rate_capability (G := lcg_random_state) bpy_params 42%Z
     = Raise (KeyError "4,4-bipyridine").
Proof.
  assert (Hl : ligand bpy_params ∉ LIGANDS)
    by (apply (proj1 (bool_decide_eq_false _)); vm_compute; reflexivity).
  split; [left; exact Hl|].
  destruct (generators_missing_category_KeyError (G := lcg_random_state)
              bpy_params 42%Z (or_introl Hl))
    as ((k1 & Hgcd & _ & Hk1) & (k2 & Hrate & _ & Hk2) & _).
  split.
  - rewrite Hgcd, Hk1. reflexivity.
  - rewrite Hrate, Hk2. reflexivity.
Defined.

(** C2 as it is stated fails: the ligand 4,4-bipyridine is outside the
    ligand set, and the GCD generator raises [KeyError], not an exception
    of a class named UnknownCategoryError. *)
Lemma generate_gcd_curve_unknown_ligand_unlabelled :
  (ligand bpy_params ∉ LIGANDS)
  /\ generate_gcd_curve (G := lcg_random_state) bpy_params 42%Z
     = Raise (KeyError "4,4-bipyridine")
  /\ ~ (exists e,
           generate_gcd_curve (G := lcg_random_state) bpy_params 42%Z = Raise e
           /\ exception_class e = "UnknownCategoryError").
Proof.
  assert (Hrun : generate_gcd_curve (G := lcg_random_state) bpy_params 42%Z
                 = Raise (KeyError "4,4-bipyridine")) by reflexivity.
  split; [apply (proj1 (bool_decide_eq_false _)); vm_compute; reflexivity|].
  split; [exact Hrun|].
  intros (e & He & Hclass). rewrite Hrun in He. injection He as <-.
  discriminate Hclass.
Qed.

(** ** Samples, the dataset loop and the seed *)

Section DatasetProperties.
Context {G : RandomState} {HL : RandomStateLaws G}.

(** A choice from a non-empty sequence returns one of its elements. *)
Lemma np_random_choice_Ok {A : Type} (a : list A) (g : rng) :
  a <> [] ->
  exists (x : A) (g' : rng), np_random_choice a g = Ok (x, g') /\ x ∈ a.
Proof.
  intros Ha. destruct a as [|x0 xs]; [contradiction|].
  unfold np_random_choice. rewrite bind_draw.
  pose proof (randint_lt (length (x0 :: xs)) g ltac:(cbn; lia)) as Hlt.
  destruct (lookup_lt_is_Some_2 _ _ Hlt) as [x Hx].
  exists x, (snd (randint (length (x0 :: xs)) g)).
  rewrite Hx. split; [reflexivity|]. now apply list_elem_of_lookup_2 in Hx.
Qed.

(** A sample is always produced, and its inputs are drawn from the
    parameter spaces. *)
Lemma generate_sample_Ok (g : rng) :
  exists (sample : Sample) (g' : rng),
    generate_sample g = Ok (sample, g') /\ valid_params (inputs sample).
Proof.
  unfold generate_sample.
  destruct (np_random_choice_Ok METALS g ltac:(discriminate))
    as (m & g1 & H1 & Hm).
  rewrite (bind_Ok _ _ _ _ _ H1).
  destruct (np_random_choice_Ok VALENCIES g1 ltac:(discriminate))
    as (v & g2 & H2 & Hv).
  rewrite (bind_Ok _ _ _ _ _ H2).
  destruct (np_random_choice_Ok LIGANDS g2 ltac:(discriminate))
    as (l & g3 & H3 & Hl).
  rewrite (bind_Ok _ _ _ _ _ H3).
  destruct (np_random_choice_Ok ASSEMBLIES g3 ltac:(discriminate))
    as (a & g4 & H4 & Ha).
  rewrite (bind_Ok _ _ _ _ _ H4).
  destruct (np_random_choice_Ok ELECTRODES g4 ltac:(discriminate))
    as (e & g5 & H5 & He).
  rewrite (bind_Ok _ _ _ _ _ H5).
  destruct (np_random_choice_Ok IS_MOF g5 ltac:(discriminate))
    as (b & g6 & H6 & _).
  rewrite (bind_Ok _ _ _ _ _ H6).
  cbv zeta.
  match goal with
  | |- context [generate_gcd_curve ?params] => set (p := params)
  end.
  assert (Hvalid : valid_params p) by (repeat split; assumption).
  destruct (generate_gcd_curve_any_metal p g6 He Hl) as (out_gcd & g7 & Hgcd).
  rewrite (bind_Ok _ _ _ _ _ Hgcd).
  destruct (rate_max_capacity_valid p Hvalid)
    as (mp & ep & lp & _ & Hep & _ & _).
  destruct (rate_max_capacity_valid_positive p Hvalid) as (mc & Hmc & Hmcpos).
  destruct (generate_rate_capability_shape p g7 mc Hmc ltac:(lra))
    as (n1 & g8 & _ & Hrate).
  rewrite (bind_Ok _ _ _ _ _ Hrate).
  destruct (generate_ies_spectrum_shape p g8) as (sp & g9 & _ & Hies).
  rewrite (bind_Ok _ _ _ _ _ Hies).
  destruct (generate_eis_nyquist_shape p g9 ep Hep)
    as (zr & zi & g10 & _ & _ & Heis).
  rewrite (bind_Ok _ _ _ _ _ Heis).
  eexists _, g10. split; [reflexivity | exact Hvalid].
Qed.

(** The loop returns with one more sample and one more feature row per
    iteration. *)
Lemma dataset_loop_Ok (num_samples : nat) (dataset : list Sample)
    (feature_data : list FeatureRow) (g : rng) :
  exists (dataset' : list Sample) (feature_data' : list FeatureRow) (g' : rng),
    dataset_loop num_samples dataset feature_data g
    = Ok ((dataset', feature_data'), g')
    /\ length dataset' = (length dataset + num_samples)%nat
    /\ length feature_data' = (length feature_data + num_samples)%nat
    /\ (Forall (fun s => valid_params (inputs s)) dataset ->
        Forall (fun s => valid_params (inputs s)) dataset').
Proof.
  revert dataset feature_data g.
  induction num_samples as [|n IH]; intros dataset feature_data g.
  - exists dataset, feature_data, g. cbn. repeat split; auto with arith.
  - cbn [dataset_loop].
    destruct (generate_sample_Ok g) as (sample & g1 & Hs & Hvalid).
    rewrite (bind_Ok _ _ _ _ _ Hs). cbv zeta.
    match goal with
    | |- context [dataset_loop n ?ds ?fs g1] =>
        destruct (IH ds fs g1) as (ds' & fs' & g' & Hloop & Hlen & Hlen' & Hall)
    end.
    exists ds', fs', g'. split; [exact Hloop|].
    rewrite length_app in Hlen, Hlen'. cbn in Hlen, Hlen'.
    split; [lia|]. split; [lia|].
    intros Hds. apply Hall, Forall_app. split; [exact Hds|].
    now constructor.
Qed.

End DatasetProperties.

(** * Further properties of the generator script *)

(** ** The feature encoder as a code *)

Section EncoderCode.
Local Open Scope R_scope.

Lemma one_hot_range (value : string) (universe : list string) :
  Forall (fun x => 0 <= x <= 1) (one_hot value universe).
Proof.
  unfold one_hot. apply Forall_fmap, Forall_forall. intros c _. cbn.
  destruct (String.eqb value c); lra.
Qed.

(** A one-hot row names its value: two values with one row over a
    universe that has the first are equal. *)
Lemma one_hot_inj (value value' : string) (universe : list string) :
  value ∈ universe ->
  one_hot value universe = one_hot value' universe -> value = value'.
Proof.
  induction universe as [|c cs IH]; intros Hin Heq.
  - now apply elem_of_nil in Hin.
  - cbn in Heq. injection Heq as Hhead Htail.
    apply elem_of_cons in Hin as [-> | Hin]; [|now apply IH].
    rewrite String.eqb_refl in Hhead.
    destruct (String.eqb_spec value' c) as [-> | _]; [reflexivity | lra].
Qed.


Lemma cons_eq_inv {A : Type} (x y : A) (l k : list A) :
  x :: l = y :: k -> x = y /\ l = k.
Proof. intros H. injection H as -> ->. now split. Qed.

(** Two valid parameter sets with one feature vector are the same
    parameter set: the inputs can be read back from the encoding. *)
Theorem create_feature_vector_injective (p1 p2 : MaterialParameters) :
  valid_params p1 -> valid_params p2 ->
  create_feature_vector p1 = create_feature_vector p2 -> p1 = p2.
Proof.
  intros (Hm & _ & Hl & Ha1 & He) (_ & _ & _ & Ha2 & _) Heq.
  rewrite !create_feature_vector_layout in Heq.
  apply app_inj_1 in Heq as [Hmetal Heq]; [|now rewrite !one_hot_length].
  apply cons_eq_inv in Heq as [Hval Heq].
  apply app_inj_1 in Heq as [Hligand Heq]; [|now rewrite !one_hot_length].
  apply cons_eq_inv in Heq as [Hasm Heq].
  apply app_inj_1 in Heq as [Helectrode Heq]; [|now rewrite !one_hot_length].
  apply cons_eq_inv in Heq as [Hmof _].
  apply one_hot_inj in Hmetal, Hligand, Helectrode; try assumption.
  assert (Hv : valency p1 = valency p2).
  { apply eq_IZR. lra. }
  assert (Ha : assembly p1 = assembly p2).
  { unfold ASSEMBLIES in Ha1, Ha2. split_elem_of Ha1; split_elem_of Ha2;
      rewrite Ha1, Ha2 in *; cbn in Hasm; (reflexivity || lra). }
  assert (Hb : is_mof p1 = is_mof p2).
  { destruct (is_mof p1), (is_mof p2); (reflexivity || lra). }
  destruct p1, p2. cbn in *. congruence.
Qed.

(** Every feature of a valid parameter set lies between 0 and 1. *)
Theorem create_feature_vector_unit_range (p : MaterialParameters) :
  valid_params p -> Forall (fun x => 0 <= x <= 1) (create_feature_vector p).
Proof.
  intros Hvalid. pose proof (valency_positive p Hvalid) as [Hlo Hhi].
  apply IZR_le in Hlo, Hhi.
  rewrite create_feature_vector_layout.
  apply Forall_app; split; [apply one_hot_range|].
  apply Forall_cons; split; [lra|].
  apply Forall_app; split; [apply one_hot_range|].
  apply Forall_cons; split; [destruct (String.eqb _ _); lra|].
  apply Forall_app; split; [apply one_hot_range|].
  apply Forall_cons; split; [destruct (is_mof p); lra | constructor].
Qed.

End EncoderCode.

(** ** The factors of the property tables *)

Section TableFactors.
Local Open Scope R_scope.

Lemma METAL_PROPERTIES_bounds (m : string) :
  m ∈ METALS ->
  exists props,
    METAL_PROPERTIES !! m = Some props
    /\ 0.95 <= redox_factor props <= 1.25
    /\ 1.0 <= conductivity props <= 1.20
    /\ 18.5 <= plasmon_peak props <= 24
    /\ 4.5 <= d_transition props <= 7.2.
Proof.
  intros Hm. unfold METALS in Hm. split_elem_of Hm;
    (eexists; split; [reflexivity | cbn; lra]).
Qed.

Lemma get_metal_properties_positive (m : string) :
  0.95 <= redox_factor (get_metal_properties m) <= 1.25
  /\ 1.0 <= conductivity (get_metal_properties m) <= 1.20
  /\ 18.5 <= plasmon_peak (get_metal_properties m) <= 24
  /\ 4.5 <= d_transition (get_metal_properties m) <= 7.2.
Proof.
  destruct (decide (m ∈ METALS)) as [Hm | Hm].
  - destruct (METAL_PROPERTIES_bounds m Hm) as (props & Hp & Hb).
    unfold get_metal_properties. now rewrite Hp.
  - unfold get_metal_properties. rewrite (METAL_PROPERTIES_unknown m Hm). cbn. lra.
Qed.

(** Every coefficient a lookup can return is a positive factor in a narrow
    band: for every metal string, known or not, the redox factor lies in
    [0.95, 1.25], the conductivity in [1.0, 1.2], the plasmon peak in
    [18.5, 24] and the d-transition in [4.5, 7.2]; every electrode of the
    table has a capacity boost in [1.0, 1.3] and a resistance in
    [0.8, 1.1]; every ligand has a porosity in [1.05, 1.2] and a stability
    in [0.95, 1.1]. *)
Theorem property_factors_bounded :
  (forall m : string,
      0.95 <= redox_factor (get_metal_properties m) <= 1.25
      /\ 1.0 <= conductivity (get_metal_properties m) <= 1.20
      /\ 18.5 <= plasmon_peak (get_metal_properties m) <= 24
      /\ 4.5 <= d_transition (get_metal_properties m) <= 7.2)
  /\ (forall (e : string) (props : ElectrodeProperties),
         ELECTRODE_PROPERTIES !! e = Some props ->
         1.0 <= capacity_boost props <= 1.3 /\ 0.8 <= resistance props <= 1.1)
  /\ (forall (l : string) (props : LigandProperties),
         LIGAND_PROPERTIES !! l = Some props ->
         1.05 <= porosity props <= 1.2 /\ 0.95 <= stability props <= 1.1).
Proof.
  split; [exact get_metal_properties_positive|]. split.
  - intros e props He. apply elem_of_list_to_map_2 in He.
    unfold ELECTRODE_PROPERTIES_items in He.
    split_elem_of He; injection He as -> ->; cbn; lra.
  - intros l props Hl. apply elem_of_list_to_map_2 in Hl.
    unfold LIGAND_PROPERTIES_items in Hl.
    split_elem_of Hl; injection Hl as -> ->; cbn; lra.
Qed.
End TableFactors.

(** ** The GCD generator beyond the parameter spaces *)

Section GcdFurther.
Context {G : RandomState}.
Local Open Scope R_scope.

(** The multiplier is positive as soon as the electrode and the ligand are
    known, whatever the metal and the assembly are. *)
Lemma gcd_capacity_multiplier_any_metal (p : MaterialParameters) :
  electrode p ∈ ELECTRODES -> ligand p ∈ LIGANDS ->
  exists cm, gcd_capacity_multiplier p = Ok cm /\ 0 < cm.
Proof.
  intros He Hl.
  destruct (ELECTRODE_PROPERTIES_known _ He) as (ep & Hep & Hepos).
  destruct (LIGAND_PROPERTIES_known _ Hl) as (lp & Hlp & Hlpos).
  pose proof (get_metal_properties_positive (metal p)) as (Hredox & _).
  unfold gcd_capacity_multiplier, getitem. rewrite Hep, Hlp.
  eexists. split; [reflexivity|].
  repeat apply Rmult_lt_0_compat; try assumption; try lra.
  - destruct (is_mof p); lra.
  - destruct (String.eqb _ _); lra.
Qed.

Lemma gcd_max_time_antitone (bc : Z) (cm c1 c2 : R) :
  (0 <= bc)%Z -> 0 < cm -> 0 < c1 <= c2 ->
  gcd_max_time bc cm c2 <= gcd_max_time bc cm c1.
Proof.
  intros Hbc Hcm [Hc1 Hc12]. unfold gcd_max_time.
  apply IZR_le in Hbc.
  apply Rmult_le_compat_l; [nra|].
  apply Rinv_le_contravar; lra.
Qed.

(** The GCD generator needs neither a known metal nor a listed assembly
    nor a valency of the list: with a known electrode, a known ligand and
    a positive valency whose hundredfold is still an [np.int64], it
    returns, and every entry belongs to a current density of the list,
    with a time grid of 200 points that starts at 0, never decreases and
    ends at the discharge time, which is positive; a larger current
    density never gives a longer discharge time. *)
Theorem generate_gcd_curve_any_metal_grid (p : MaterialParameters) (g : rng) :
  electrode p ∈ ELECTRODES -> ligand p ∈ LIGANDS ->
  (0 < valency p)%Z -> (100 * valency p <= int64_max)%Z ->
  exists (cm : R) (gcd_data : gmap string GcdCurve) (g' : rng),
    gcd_capacity_multiplier p = Ok cm
    /\ generate_gcd_curve p g = Ok (gcd_data, g')
    /\ (forall key, key ∈ gcd_keys -> is_Some (gcd_data !! key))
    /\ (forall key curve,
          gcd_data !! key = Some curve ->
          exists current max_time,
            (key, current) ∈ gcd_keyed_current_densities
            /\ max_time = gcd_max_time (100 * valency p) cm current
            /\ 0 < max_time
            /\ time curve = np.linspace 0 max_time 200
            /\ head (time curve) = Some 0
            /\ last (time curve) = Some max_time
            /\ nondecreasing (time curve)
            /\ length (voltage curve) = 200%nat)
    /\ (forall key1 key2 c1 c2,
          (key1, c1) ∈ gcd_keyed_current_densities ->
          (key2, c2) ∈ gcd_keyed_current_densities -> c1 <= c2 ->
          gcd_max_time (100 * valency p) cm c2
          <= gcd_max_time (100 * valency p) cm c1).
Proof.
  intros He Hl Hval _.
  destruct (gcd_capacity_multiplier_any_metal p He Hl) as (cm & Hcm & Hpos).
  destruct (gcd_loop_Ok (100 * valency p) cm gcd_keyed_current_densities ∅ g)
    as (data & g' & Hloop & Hother & Hkeys).
  exists cm, data, g'. split; [exact Hcm|]. split.
  { unfold generate_gcd_curve. now rewrite (bind_lift_Ok _ _ _ _ Hcm). }
  split.
  { intros key Hk. destruct (Hkeys key Hk) as (curve & Hc & _). now exists curve. }
  split.
  - intros key curve Hc.
    assert (Hin : key ∈ gcd_keys).
    { destruct (decide (key ∈ gcd_keys)) as [|Hn]; [assumption|].
      rewrite (Hother key Hn), lookup_empty in Hc. discriminate. }
    destruct (Hkeys key Hin) as (curve' & Hc' & current & g1 & g2 & Hcur & Hrun).
    assert (curve' = curve) as -> by congruence.
    apply gcd_discharge_shape in Hrun as [Htime Hvolt].
    pose proof (gcd_current_positive _ _ Hcur) as Hcpos.
    assert (Hmt : 0 < gcd_max_time (100 * valency p) cm current).
    { unfold gcd_max_time. apply Rdiv_lt_0_compat; [|lra].
      apply Rmult_lt_0_compat; [|assumption]. apply IZR_lt. lia. }
    exists current, (gcd_max_time (100 * valency p) cm current).
    split; [exact Hcur|]. split; [reflexivity|]. split; [exact Hmt|].
    split; [exact Htime|]. rewrite Htime.
    split; [apply linspace_head; lia|].
    split; [apply linspace_last; lia|].
    split; [apply linspace_nondecreasing; [lia | lra]|].
    exact Hvolt.
  - intros key1 key2 c1 c2 H1 _ Hle.
    apply gcd_current_positive in H1.
    apply gcd_max_time_antitone; [lia | assumption | lra].
Qed.
End GcdFurther.

Lemma generate_gcd_curve_any_metal_grid_witness :
  (electrode xx_params ∈ ELECTRODES) /\ (ligand xx_params ∈ LIGANDS)
  /\ (0 < valency xx_params)%Z /\ (100 * valency xx_params <= int64_max)%Z
  /\ exists (gcd_data : gmap string GcdCurve) (g' : Z),
       generate_gcd_curve (G := lcg_random_state) xx_params 42%Z = Ok (gcd_data, g').
Proof.
  assert (He : electrode xx_params ∈ ELECTRODES)
    by (apply (proj1 (bool_decide_eq_true _)); vm_compute; reflexivity).
  assert (Hl : ligand xx_params ∈ LIGANDS)
    by (apply (proj1 (bool_decide_eq_true _)); vm_compute; reflexivity).
  assert (Hv : (0 < valency xx_params)%Z) by (cbn; lia).
  assert (Hb : (100 * valency xx_params <= int64_max)%Z)
    by (unfold int64_max; cbn; lia).
  repeat (split; [assumption|]).
  destruct (generate_gcd_curve_any_metal_grid (G := lcg_random_state)
              xx_params 42%Z He Hl Hv Hb) as (cm & data & g' & _ & Hrun & _).
  now exists data, g'.
Defined.

(** ** The discharge curve before the noise *)

Section DecayCurve.
Context {G : RandomState} {HL : RandomStateLaws G}.
Local Open Scope R_scope.

Lemma exp_le (x y : R) : x <= y -> exp x <= exp y.
Proof.
  intros [Hlt | ->]; [left; now apply exp_increasing | right; reflexivity].
Qed.

Lemma linspace_bounds (start stop : R) (num : nat) :
  (1 < num)%nat -> start <= stop ->
  Forall (fun x => start <= x <= stop) (np.linspace start stop num).
Proof.
  intros Hnum Hle. apply Forall_lookup. intros i x Hx.
  assert (Hi : (i < num)%nat).
  { apply lookup_lt_Some in Hx. now rewrite linspace_length in Hx. }
  apply linspace_lookup_affine in Hx; [|assumption]. subst x.
  assert (Hpos : 0 < INR (num - 1)) by (apply lt_0_INR; lia).
  assert (Hstep : (stop - start) / INR (num - 1) * INR (num - 1) = stop - start)
    by (field; lra).
  assert (0 <= (stop - start) / INR (num - 1)).
  { apply Rmult_le_pos; [lra|]. left. now apply Rinv_0_lt_compat. }
  assert (0 <= INR i) by apply pos_INR.
  assert (INR i <= INR (num - 1)) by (apply le_INR; lia).
  split; nra.
Qed.

Lemma gcd_voltage_decay_lookup (V_start V_end max_time : R) (time : list R)
    (i : nat) (v : R) :
  gcd_voltage_decay V_start V_end max_time time !! i = Some v ->
  exists t, time !! i = Some t
            /\ v = V_end + (V_start - V_end) * exp (- t / (max_time / 3)).
Proof.
  unfold gcd_voltage_decay. rewrite list_lookup_fmap.
  destruct (time !! i) as [t|]; cbn; [|discriminate].
  intros [= <-]. now exists t.
Qed.

(** Before the noise the voltage of a discharge falls.  For a known
    electrode and ligand, a positive valency whose hundredfold is still an
    [np.int64] and a current density of the list, the loop body returns the
    time grid and the sum of the decay curve and the noise, where the decay
    curve runs between the two voltages drawn first from the generator
    state and the noise is what [np.random.normal] draws next.  The start
    voltage lies between 0.9 and 1.0 and the end voltage between 0.1 and
    0.15; the decay curve starts at the start voltage and ends at
    V_end + (V_start - V_end) * exp(-3), three time constants later (both
    up to rounding, here: to within 1e-12); it never goes up along the
    time grid and stays above the end voltage. *)
Theorem gcd_discharge_voltage_decay (p : MaterialParameters) (cm : R)
    (key : string) (current : R) (g : rng) :
  electrode p ∈ ELECTRODES -> ligand p ∈ LIGANDS ->
  (0 < valency p)%Z -> (100 * valency p <= int64_max)%Z ->
  gcd_capacity_multiplier p = Ok cm ->
  (key, current) ∈ gcd_keyed_current_densities ->
  let max_time := gcd_max_time (100 * valency p) cm current in
  let V_start := 0.9 + 0.1 * fst (random g) in
  let V_end := 0.1 + 0.05 * fst (random (snd (random g))) in
  let clean :=
    gcd_voltage_decay V_start V_end max_time (np.linspace 0 max_time 200) in
  exists (noise : list R) (g' : rng),
    np_random_normal 0 0.01 200 (snd (random (snd (random g)))) = Ok (noise, g')
    /\ gcd_discharge (100 * valency p) cm current g
       = Ok ({| time := np.linspace 0 max_time 200;
                voltage := np.add clean noise |}, g')
    /\ length clean = 200%nat /\ length noise = 200%nat
    /\ 0.9 <= V_start <= 1.0 /\ 0.1 <= V_end <= 0.15
    /\ (exists v0, head clean = Some v0 /\ Rabs (v0 - V_start) <= 1e-12)
    /\ (exists v199,
          last clean = Some v199
          /\ Rabs (v199 - (V_end + (V_start - V_end) * exp (- 3))) <= 1e-12)
    /\ nonincreasing clean
    /\ Forall (fun v => V_end < v <= V_start + 1e-12) clean.
Proof.
  intros He Hl Hval _ Hcm Hcur mt Vs Ve clean.
  assert (Hmt : 0 < mt).
  { destruct (gcd_capacity_multiplier_any_metal p He Hl) as (cm' & Hcm' & Hpos).
    assert (cm' = cm) as -> by congruence.
    apply gcd_current_positive in Hcur.
    unfold mt, gcd_max_time. apply Rdiv_lt_0_compat; [|lra].
    apply Rmult_lt_0_compat; [|assumption]. apply IZR_lt. lia. }
  destruct (gcd_discharge_draws (100 * valency p) cm current g)
    as (noise & g' & Hn & Hnoise & Hrun).
  cbv zeta in Hrun. fold mt Vs Ve in Hrun. fold clean in Hrun.
  pose proof (random_range g) as Hu1.
  pose proof (random_range (snd (random g))) as Hu2.
  exists noise, g'.
  split; [exact Hn|]. split; [exact Hrun|].
  split; [unfold clean; now rewrite gcd_voltage_decay_length, linspace_length|].
  split; [exact Hnoise|].
  split; [subst Vs; lra|]. split; [subst Ve; lra|].
  assert (Hgap : Ve < Vs) by (subst Vs Ve; lra).
  assert (Htc : 0 < mt / 3) by lra.
  split.
  { eexists. split; [unfold clean; apply gcd_voltage_decay_head; lia|].
    replace (- 0 / (mt / 3)) with 0 by (field; lra). rewrite exp_0.
    replace (Ve + (Vs - Ve) * 1 - Vs) with 0 by lra. rewrite Rabs_R0. lra. }
  split.
  { eexists. split.
    - unfold clean, gcd_voltage_decay. rewrite fmap_last, linspace_last by lia.
      reflexivity.
    - replace (- mt / (mt / 3)) with (- 3) by (field; lra).
      rewrite Rminus_diag, Rabs_R0. lra. }
  split.
  - intros i k x y Hik Hx Hy.
    apply gcd_voltage_decay_lookup in Hx as (ti & Hti & ->).
    apply gcd_voltage_decay_lookup in Hy as (tk & Htk & ->).
    assert (Hle : ti <= tk).
    { apply (linspace_nondecreasing 0 mt 200 ltac:(lia) ltac:(lra) i k); assumption. }
    assert (Hexp : exp (- tk / (mt / 3)) <= exp (- ti / (mt / 3))).
    { apply exp_le. apply Rmult_le_compat_r; [left; now apply Rinv_0_lt_compat | lra]. }
    nra.
  - apply Forall_lookup. intros i v Hv.
    apply gcd_voltage_decay_lookup in Hv as (t & Ht & ->).
    pose proof (linspace_bounds 0 mt 200 ltac:(lia) ltac:(lra)) as Hb.
    rewrite Forall_lookup in Hb. specialize (Hb i t Ht). cbn beta in Hb.
    pose proof (exp_pos (- t / (mt / 3))) as Hpos.
    assert (Hexp : exp (- t / (mt / 3)) <= 1).
    { rewrite <- exp_0. apply exp_le.
      assert (0 < / (mt / 3)) by now apply Rinv_0_lt_compat.
      unfold Rdiv. nra. }
    split; nra.
Qed.
End DecayCurve.

Lemma gcd_discharge_voltage_decay_witness :
  RandomStateLaws lcg_random_state
  /\ (electrode cu_bdc_params ∈ ELECTRODES) /\ (ligand cu_bdc_params ∈ LIGANDS)
  /\ (0 < valency cu_bdc_params)%Z /\ (100 * valency cu_bdc_params <= int64_max)%Z
  /\ gcd_capacity_multiplier cu_bdc_params = Ok (1.2 * 1.3 * 1.1 * 1.5 * 1.0)%R
  /\ (("current_0.5", 0.5%R) ∈ gcd_keyed_current_densities)
  /\ exists (curve : GcdCurve) (g' : Z),
       gcd_discharge (G := lcg_random_state) (100 * valency cu_bdc_params)
         (1.2 * 1.3 * 1.1 * 1.5 * 1.0)%R 0.5%R 42%Z = Ok (curve, g').
Proof.
  assert (He : electrode cu_bdc_params ∈ ELECTRODES)
    by (apply (proj1 (bool_decide_eq_true _)); vm_compute; reflexivity).
  assert (Hl : ligand cu_bdc_params ∈ LIGANDS)
    by (apply (proj1 (bool_decide_eq_true _)); vm_compute; reflexivity).
  assert (Hv : (0 < valency cu_bdc_params)%Z) by (cbn; lia).
  assert (Hb : (100 * valency cu_bdc_params <= int64_max)%Z)
    by (unfold int64_max; cbn; lia).
  assert (Hcm : gcd_capacity_multiplier cu_bdc_params
                = Ok (1.2 * 1.3 * 1.1 * 1.5 * 1.0)%R) by reflexivity.
  assert (Hk : ("current_0.5", 0.5%R) ∈ gcd_keyed_current_densities)
    by (apply elem_of_cons; now left).
  split; [exact lcg_random_state_laws|].
  repeat (split; [assumption|]).
  destruct (gcd_discharge_voltage_decay (G := lcg_random_state)
              (HL := lcg_random_state_laws) cu_bdc_params _ _ _ 42%Z
              He Hl Hv Hb Hcm Hk)
    as (noise & g' & _ & Hrun & _).
  eexists _, g'. exact Hrun.
Defined.

(** ** Rate capability: the grid, the power law and the GCD basis *)

Section RateFurther.
Context {G : RandomState}.
Local Open Scope R_scope.

(** The capacity ceiling of the rate-capability generator and the capacity
    basis of the GCD generator are built from the same table entries: for a
    parameter set of the parameter spaces the multiplier of the GCD
    generator is redox_factor * capacity_boost * porosity * MOF factor *
    assembly factor, the ceiling is 100 * valency * redox_factor *
    capacity_boost * porosity * MOF factor, each product taken from left to
    right, and 100 * valency times the multiplier is the ceiling times the
    assembly factor up to rounding (here: to within 1e-9). *)
Theorem rate_max_capacity_gcd_basis (p : MaterialParameters) :
  valid_params p ->
  exists (metal_props : MetalProperties) (electrode_props : ElectrodeProperties)
         (ligand_props : LigandProperties) (cm mc : R),
    METAL_PROPERTIES !! metal p = Some metal_props
    /\ ELECTRODE_PROPERTIES !! electrode p = Some electrode_props
    /\ LIGAND_PROPERTIES !! ligand p = Some ligand_props
    /\ gcd_capacity_multiplier p = Ok cm
    /\ cm = redox_factor metal_props * capacity_boost electrode_props
            * porosity ligand_props * (if is_mof p then 1.5 else 1.0)
            * (if String.eqb (assembly p) "Three-Electrode" then 1.1 else 1.0)
    /\ rate_max_capacity p = Ok mc
    /\ mc = IZR (100 * valency p) * redox_factor metal_props
            * capacity_boost electrode_props * porosity ligand_props
            * (if is_mof p then 1.5 else 1.0)
    /\ Rabs (IZR (100 * valency p) * cm
             - mc * (if String.eqb (assembly p) "Three-Electrode"
                     then 1.1 else 1.0)) <= 1e-9.
Proof.
  intros Hvalid.
  destruct (rate_max_capacity_valid p Hvalid)
    as (mp & ep & lp & Hmp & Hep & Hlp & Hmc & _).
  exists mp, ep, lp. eexists _, _.
  split; [exact Hmp|]. split; [exact Hep|]. split; [exact Hlp|].
  split.
  { unfold gcd_capacity_multiplier, get_metal_properties, getitem.
    rewrite Hmp, Hep, Hlp. reflexivity. }
  split; [reflexivity|]. split; [exact Hmc|]. split; [reflexivity|].
  match goal with
  | |- Rabs ?d <= _ => replace d with 0 by ring
  end.
  rewrite Rabs_R0. lra.
Qed.

(** A negative valency makes the rate-capability generator fail: with a
    known metal, electrode and ligand the capacity ceiling is negative, so
    is the scale of the noise, and [np.random.normal] raises [ValueError]
    before anything is drawn. *)
Theorem generate_rate_capability_negative_valency (p : MaterialParameters)
    (g : rng) :
  metal p ∈ METALS -> electrode p ∈ ELECTRODES -> ligand p ∈ LIGANDS ->
  (valency p < 0)%Z -> (- int64_max <= 100 * valency p)%Z ->
  generate_rate_capability p g = Raise (ValueError "scale < 0").
Proof.
  intros Hm He Hl Hneg _.
  destruct (METAL_PROPERTIES_known _ Hm) as (mp & Hmp & Hmpos).
  destruct (ELECTRODE_PROPERTIES_known _ He) as (ep & Hep & Hepos).
  destruct (LIGAND_PROPERTIES_known _ Hl) as (lp & Hlp & Hlpos).
  assert (Hmc : rate_max_capacity p
                = Ok (IZR (100 * valency p) * redox_factor mp * capacity_boost ep
                      * porosity lp * (if is_mof p then 1.5 else 1.0))).
  { unfold rate_max_capacity, getitem. now rewrite Hmp, Hep, Hlp. }
  unfold generate_rate_capability. rewrite (bind_lift_Ok _ _ _ _ Hmc).
  apply bind_Raise, np_random_normal_negative.
  assert (Hf : 0 < redox_factor mp * capacity_boost ep * porosity lp
                   * (if is_mof p then 1.5 else 1.0)).
  { repeat apply Rmult_lt_0_compat; try assumption. destruct (is_mof p); lra. }
  assert (Hv : IZR (100 * valency p) <= -100) by (apply IZR_le; lia).
  set (f := redox_factor mp * capacity_boost ep * porosity lp
            * (if is_mof p then 1.5 else 1.0)) in *.
  replace (IZR (100 * valency p) * redox_factor mp * capacity_boost ep
           * porosity lp * (if is_mof p then 1.5 else 1.0))
    with (IZR (100 * valency p) * f) by (subst f; ring).
  nra.
Qed.

Lemma rate_grid_lookup (i : nat) :
  (i < 10)%nat -> np.linspace 0.5 5.0 10 !! i = Some (0.5 + 0.5 * INR i).
Proof.
  intros Hi.
  destruct (lookup_lt_is_Some_2 (np.linspace 0.5 5.0 10) i) as [x Hx];
    [now rewrite linspace_length|].
  rewrite Hx. f_equal.
  apply linspace_lookup_affine in Hx; [|lia]. subst x.
  change (INR (10 - 1)) with (INR 9). cbn [INR]. lra.
Qed.

Lemma Rpower_one (y : R) : Rpower 1 y = 1.
Proof. unfold Rpower. rewrite ln_1, Rmult_0_r. apply exp_0. Qed.

Lemma rate_power_law_lookup (mc : R) (grid : list R) (i : nat) (x : R) :
  rate_power_law mc grid !! i = Some x ->
  exists c, grid !! i = Some c /\ x = mc * Rpower (0.5 / c) 0.3.
Proof.
  unfold rate_power_law. rewrite list_lookup_fmap.
  destruct (grid !! i) as [c|]; cbn; [|discriminate].
  intros [= <-]. now exists c.
Qed.

(** The current densities of the rate-capability output are 0.5, 1.0, ...,
    5.0, and before the noise the capacity fades along them: it is
    max_capacity at 0.5, never goes up, and stays between 0 and
    max_capacity, so that clipping acts on the noise only. *)
Theorem rate_power_law_fades (mc : R) :
  0 <= mc ->
  (forall i, (i < 10)%nat ->
             np.linspace 0.5 5.0 10 !! i = Some (0.5 + 0.5 * INR i))
  /\ head (rate_power_law mc (np.linspace 0.5 5.0 10)) = Some mc
  /\ nonincreasing (rate_power_law mc (np.linspace 0.5 5.0 10))
  /\ Forall (fun c => 0 <= c <= mc) (rate_power_law mc (np.linspace 0.5 5.0 10)).
Proof.
  intros Hmc. split; [exact rate_grid_lookup|].
  assert (Hgrid : forall i c, np.linspace 0.5 5.0 10 !! i = Some c ->
                              c = 0.5 + 0.5 * INR i /\ 0.5 <= c).
  { intros i c Hc. pose proof (lookup_lt_Some _ _ _ Hc) as Hi.
    rewrite linspace_length in Hi. rewrite rate_grid_lookup in Hc by assumption.
    injection Hc as <-. pose proof (pos_INR i). split; lra. }
  split.
  { unfold rate_power_law. rewrite head_lookup, list_lookup_fmap.
    rewrite rate_grid_lookup by lia. cbn.
    replace (0.5 / (0.5 + 0.5 * 0)) with 1 by (field; lra).
    rewrite Rpower_one. f_equal. lra. }
  split.
  - intros i k x y Hik Hx Hy.
    apply rate_power_law_lookup in Hx as (ci & Hci & ->).
    apply rate_power_law_lookup in Hy as (ck & Hck & ->).
    destruct (Hgrid _ _ Hci) as [-> Hi]. destruct (Hgrid _ _ Hck) as [-> Hk].
    apply Rmult_le_compat_l; [assumption|].
    assert (INR i <= INR k) by now apply le_INR.
    apply Rle_Rpower_l; [lra|]. split.
    + apply Rdiv_lt_0_compat; lra.
    + apply Rmult_le_compat_l; [lra|]. apply Rinv_le_contravar; lra.
  - apply Forall_lookup. intros i x Hx.
    apply rate_power_law_lookup in Hx as (c & Hc & ->).
    destruct (Hgrid _ _ Hc) as [_ Hlo].
    assert (Hpow : 0 < Rpower (0.5 / c) 0.3 <= 1).
    { split; [unfold Rpower; apply exp_pos|].
      rewrite <- (Rpower_one 0.3). apply Rle_Rpower_l; [lra|]. split.
      - apply Rdiv_lt_0_compat; lra.
      - apply (Rmult_le_reg_r c); [lra|]. field_simplify; lra. }
    split; nra.
Qed.

(** Each generator reads only some of the parameters, and the same
    generator state gives the same result when those agree: the IES
    spectrum depends on the metal alone, the EIS trace on the electrode
    alone (the metal is read and never used), and the rate capability on
    everything but the assembly. *)
Theorem generators_ignore_unread_fields (p1 p2 : MaterialParameters) (g : rng) :
  (metal p1 = metal p2 ->
   generate_ies_spectrum p1 g = generate_ies_spectrum p2 g)
  /\ (electrode p1 = electrode p2 ->
      generate_eis_nyquist p1 g = generate_eis_nyquist p2 g)
  /\ (metal p1 = metal p2 -> valency p1 = valency p2 ->
      electrode p1 = electrode p2 -> ligand p1 = ligand p2 ->
      is_mof p1 = is_mof p2 ->
      generate_rate_capability p1 g = generate_rate_capability p2 g).
Proof.
  split; [|split].
  - intros Hm. unfold generate_ies_spectrum. now rewrite Hm.
  - intros He. unfold generate_eis_nyquist. now rewrite He.
  - intros Hm Hv He Hl Hb. unfold generate_rate_capability, rate_max_capacity.
    now rewrite Hm, Hv, He, Hl, Hb.
Qed.
End RateFurther.

Lemma rate_max_capacity_gcd_basis_witness :
  valid_params cu_bdc_params
  /\ exists (cm mc : R),
       gcd_capacity_multiplier cu_bdc_params = Ok cm
       /\ rate_max_capacity cu_bdc_params = Ok mc
       /\ (Rabs (IZR (100 * valency cu_bdc_params) * cm
                 - mc * (if String.eqb (assembly cu_bdc_params) "Three-Electrode"
                         then 1.1 else 1.0)) <= 1e-9)%R.
Proof.
  assert (Hv : valid_params cu_bdc_params)
    by (apply valid_paramsb_spec; vm_compute; reflexivity).
  split; [exact Hv|].
  destruct (rate_max_capacity_gcd_basis cu_bdc_params Hv)
    as (mp & ep & lp & cm & mc & _ & _ & _ & Hcm & _ & Hmc & _ & Hclose).
  exists cm, mc. split; [exact Hcm|]. split; [exact Hmc | exact Hclose].
Defined.

Lemma generate_rate_capability_negative_valency_witness :
  generate_rate_capability (G := lcg_random_state)
    {| metal := "Cu"; valency := -1; ligand := "BDC";
       assembly := "Two-Electrode"; electrode := "Nickel Foam"; is_mof := true |}
    42%Z
  = Raise (ValueError "scale < 0").
Proof.
  apply (generate_rate_capability_negative_valency (G := lcg_random_state)
           {| metal := "Cu"; valency := -1; ligand := "BDC";
              assembly := "Two-Electrode"; electrode := "Nickel Foam";
              is_mof := true |} 42%Z).
  - apply (proj1 (bool_decide_eq_true _)). vm_compute. reflexivity.
  - apply (proj1 (bool_decide_eq_true _)). vm_compute. reflexivity.
  - apply (proj1 (bool_decide_eq_true _)). vm_compute. reflexivity.
  - cbn. lia.
  - unfold int64_max. cbn. lia.
Defined.

Lemma rate_power_law_fades_witness :
  (0 <= 1)%R /\ head (rate_power_law 1 (np.linspace 0.5 5.0 10)) = Some 1%R.
Proof.
  assert (H : (0 <= 1)%R) by lra.
  split; [exact H|]. exact (proj1 (proj2 (rate_power_law_fades 1 H))).
Defined.

(** ** The spectrum before the noise, and the frequency sweep *)

Section SpectraFurther.
Context {G : RandomState} {HL : RandomStateLaws G}.
Local Open Scope R_scope.

Lemma add_Forall (P Q S : R -> Prop) (a b : list R) :
  (forall x y, P x -> Q y -> S (x + y)) ->
  Forall P a -> Forall Q b -> Forall S (np.add a b).
Proof.
  intros HS Ha. revert b. induction Ha as [|x a Hx Ha IH]; intros b Hb.
  - constructor.
  - destruct Hb as [|y b Hy Hb]; cbn; constructor; auto.
Qed.

Lemma gaussian_peak_range (a c w : R) (energy : list R) :
  0 < a -> Forall (fun x => 0 < x <= a) (gaussian_peak a c w energy).
Proof.
  intros Ha. unfold gaussian_peak. apply Forall_fmap, Forall_forall.
  intros e _. cbn beta.
  pose proof (exp_pos (- ((e - c) / w) ^ 2)) as Hpos.
  assert (Hle : exp (- ((e - c) / w) ^ 2) <= 1).
  { rewrite <- exp_0. apply exp_le. pose proof (pow2_ge_0 ((e - c) / w)). lra. }
  split; nra.
Qed.

(** Before the noise every point of the IES spectrum is positive and at
    most 1.6.  The spectrum before the noise is the sum of the plasmon
    peak, the d-d peak and the background, with the two heights and the two
    widths drawn first from the generator state, in the order plasmon
    height, plasmon width, d-d height, d-d width; the peaks have heights of
    at most 1.0 and 0.5 and the background is at most 0.1.  The generator
    adds the 500 noise terms drawn next and clips the sum at 0 from below
    only, so every intensity is the larger of 0 and the noisy value. *)
Theorem generate_ies_spectrum_clean_range (p : MaterialParameters) (g : rng) :
  let g1 := snd (random g) in
  let g2 := snd (random g1) in
  let g3 := snd (random g2) in
  let g4 := snd (random g3) in
  let energy := np.linspace 0 50 500 in
  let metal_props := get_metal_properties (metal p) in
  let plasmon :=
    gaussian_peak (0.8 + 0.2 * fst (random g)) (plasmon_peak metal_props)
                  (2.0 + 0.5 * fst (random g1)) energy in
  let d_peak :=
    gaussian_peak (0.4 + 0.1 * fst (random g2)) (d_transition metal_props)
                  (1.5 + 0.3 * fst (random g3)) energy in
  let background := map (fun e => 0.1 * exp (- e / 30)) energy in
  let clean := np.add (np.add plasmon d_peak) background in
  exists (noise : list R) (g' : rng),
    np_random_normal 0 0.01 500 g4 = Ok (noise, g')
    /\ generate_ies_spectrum p g
       = Ok ({| energy := energy;
                intensity := np.clip (np.add clean noise) (Some 0) None |}, g')
    /\ length clean = 500%nat /\ length noise = 500%nat
    /\ Forall (fun x => 0 < x <= 1.6) clean
    /\ (forall i c n,
          clean !! i = Some c -> noise !! i = Some n ->
          np.clip (np.add clean noise) (Some 0) None !! i = Some (Rmax (c + n) 0)).
Proof.
  intros g1 g2 g3 g4 energy metal_props plasmon d_peak background clean.
  destruct (np_random_normal_Ok 0 0.01 500 g4 ltac:(lra))
    as (noise & g' & Hn & Hlen).
  pose proof (random_range g) as Hu1.
  pose proof (random_range g2) as Hu3.
  exists noise, g'. split; [exact Hn|]. split.
  { unfold generate_ies_spectrum, np_random_random. rewrite !bind_draw.
    rewrite linspace_length.
    fold g1. fold g2. fold g3. fold g4. rewrite (bind_Ok _ _ _ _ _ Hn).
    reflexivity. }
  split.
  { unfold clean, plasmon, d_peak, background, energy.
    repeat apply add_length_eq;
      rewrite ?gaussian_peak_length, ?length_map, ?linspace_length; reflexivity. }
  split; [exact Hlen|].
  split.
  - unfold clean.
    eapply (add_Forall (fun x => 0 < x <= 1.5) (fun x => 0 < x <= 0.1)).
    + intros x y Hx Hy. cbn beta. lra.
    + eapply (add_Forall (fun x => 0 < x <= 0.8 + 0.2 * fst (random g))
                (fun x => 0 < x <= 0.4 + 0.1 * fst (random g2))).
      * intros x y Hx Hy. cbn beta. lra.
      * apply gaussian_peak_range. lra.
      * apply gaussian_peak_range. lra.
    + apply Forall_fmap.
      eapply Forall_impl; [apply (linspace_bounds 0 50 500); [lia | lra]|].
      intros e He. cbn in *.
      pose proof (exp_pos (- e / 30)) as Hpos.
      assert (Hle : exp (- e / 30) <= 1) by (rewrite <- exp_0; apply exp_le; lra).
      lra.
  - intros i c n Hc Hnn. unfold np.clip, np.add.
    rewrite list_lookup_fmap, lookup_zip_with, Hc. cbn. rewrite Hnn. cbn.
    unfold np.clip1. reflexivity.
Qed.

Lemma logspace_lookup (start stop : R) (num i : nat) (f : R) :
  np.logspace start stop num !! i = Some f ->
  exists y, np.linspace start stop num !! i = Some y /\ f = Rpower 10 y.
Proof.
  unfold np.logspace. rewrite list_lookup_fmap.
  destruct (np.linspace start stop num !! i) as [y|]; cbn; [|discriminate].
  intros [= <-]. now exists y.
Qed.

(** The frequencies of the EIS output are positive, never decrease, and
    lie between 10^-2 and 10^5. *)
Theorem generate_eis_nyquist_frequency_sweep (p : MaterialParameters) (g : rng) :
  electrode p ∈ ELECTRODES ->
  exists (out : EisNyquist) (g' : rng),
    generate_eis_nyquist p g = Ok (out, g')
    /\ nondecreasing (frequency out)
    /\ Forall (fun f => 0 < f /\ Rpower 10 (-2) <= f <= Rpower 10 5) (frequency out).
Proof.
  intros He.
  destruct (ELECTRODE_PROPERTIES_known _ He) as (ep & Hep & _).
  destruct (generate_eis_nyquist_shape p g ep Hep)
    as (Z_real & Z_imag & g' & _ & _ & Hrun).
  eexists _, g'. split; [exact Hrun|]. cbn [frequency]. split.
  - intros i k x y Hik Hx Hy.
    apply logspace_lookup in Hx as (yi & Hyi & ->).
    apply logspace_lookup in Hy as (yk & Hyk & ->).
    apply Rle_Rpower; [lra|].
    apply (linspace_nondecreasing (-2) 5 100 ltac:(lia) ltac:(lra) i k); assumption.
  - apply Forall_lookup. intros i f Hf.
    apply logspace_lookup in Hf as (y & Hy & ->).
    pose proof (linspace_bounds (-2) 5 100 ltac:(lia) ltac:(lra)) as Hb.
    rewrite Forall_lookup in Hb. specialize (Hb i y Hy). cbn beta in Hb.
    split; [unfold Rpower; apply exp_pos|].
    split; apply Rle_Rpower; lra.
Qed.
End SpectraFurther.

Lemma generate_ies_spectrum_clean_range_witness :
  RandomStateLaws lcg_random_state
  /\ exists (out : IesSpectrum) (g' : Z),
       generate_ies_spectrum (G := lcg_random_state) xx_params 42%Z = Ok (out, g').
Proof.
  split; [exact lcg_random_state_laws|].
  destruct (generate_ies_spectrum_clean_range (G := lcg_random_state)
              (HL := lcg_random_state_laws) xx_params 42%Z)
    as (noise & g' & _ & Hrun & _).
  eexists _, g'. exact Hrun.
Defined.

Lemma generate_eis_nyquist_frequency_sweep_witness :
  (electrode xx_params ∈ ELECTRODES)
  /\ exists (out : EisNyquist) (g' : Z),
       generate_eis_nyquist (G := lcg_random_state) xx_params 42%Z = Ok (out, g')
       /\ nondecreasing (frequency out).
Proof.
  assert (He : electrode xx_params ∈ ELECTRODES)
    by (apply (proj1 (bool_decide_eq_true _)); vm_compute; reflexivity).
  split; [exact He|].
  destruct (generate_eis_nyquist_frequency_sweep (G := lcg_random_state)
              xx_params 42%Z He) as (out & g' & Hrun & Hmono & _).
  exists out, g'. split; assumption.
Defined.

(** ** Samples and feature rows *)

Section SampleFurther.
Context {G : RandomState} {HL : RandomStateLaws G}.

(** A sample is consistent: its inputs are drawn from the parameter
    spaces, and its four outputs are what the four generators return for
    those very inputs, run one after the other on the generator state in
    the order GCD, rate capability, IES, EIS. *)
Theorem generate_sample_consistent (g : rng) :
  exists (sample : Sample) (g0 g1 g2 g3 g' : rng),
    generate_sample g = Ok (sample, g')
    /\ valid_params (inputs sample)
    /\ generate_gcd_curve (inputs sample) g0 = Ok (gcd (outputs sample), g1)
    /\ generate_rate_capability (inputs sample) g1
       = Ok (rate_capability (outputs sample), g2)
    /\ generate_ies_spectrum (inputs sample) g2 = Ok (ies (outputs sample), g3)
    /\ generate_eis_nyquist (inputs sample) g3 = Ok (eis (outputs sample), g').
Proof.
  unfold generate_sample.
  destruct (np_random_choice_Ok METALS g ltac:(discriminate))
    as (m & s1 & H1 & Hm).
  rewrite (bind_Ok _ _ _ _ _ H1).
  destruct (np_random_choice_Ok VALENCIES s1 ltac:(discriminate))
    as (v & s2 & H2 & Hv).
  rewrite (bind_Ok _ _ _ _ _ H2).
  destruct (np_random_choice_Ok LIGANDS s2 ltac:(discriminate))
    as (l & s3 & H3 & Hl).
  rewrite (bind_Ok _ _ _ _ _ H3).
  destruct (np_random_choice_Ok ASSEMBLIES s3 ltac:(discriminate))
    as (a & s4 & H4 & Ha).
  rewrite (bind_Ok _ _ _ _ _ H4).
  destruct (np_random_choice_Ok ELECTRODES s4 ltac:(discriminate))
    as (e & s5 & H5 & He).
  rewrite (bind_Ok _ _ _ _ _ H5).
  destruct (np_random_choice_Ok IS_MOF s5 ltac:(discriminate))
    as (b & g0 & H6 & _).
  rewrite (bind_Ok _ _ _ _ _ H6).
  cbv zeta.
  match goal with
  | |- context [generate_gcd_curve ?params] => set (p := params)
  end.
  assert (Hvalid : valid_params p) by (repeat split; assumption).
  destruct (generate_gcd_curve_any_metal p g0 He Hl) as (out_gcd & g1 & Hgcd).
  rewrite (bind_Ok _ _ _ _ _ Hgcd).
  destruct (rate_max_capacity_valid p Hvalid)
    as (mp & ep & lp & _ & Hep & _ & _).
  destruct (rate_max_capacity_valid_positive p Hvalid) as (mc & Hmc & Hmcpos).
  destruct (generate_rate_capability_shape p g1 mc Hmc ltac:(lra))
    as (n1 & g2 & _ & Hrate).
  rewrite (bind_Ok _ _ _ _ _ Hrate).
  destruct (generate_ies_spectrum_shape p g2) as (sp & g3 & _ & Hies).
  rewrite (bind_Ok _ _ _ _ _ Hies).
  destruct (generate_eis_nyquist_shape p g3 ep Hep)
    as (zr & zi & g' & _ & _ & Heis).
  rewrite (bind_Ok _ _ _ _ _ Heis).
  eexists _, g0, g1, g2, g3, g'. split; [reflexivity|].
  cbn [inputs outputs gcd rate_capability ies eis].
  repeat (split; [assumption|]). assumption.
Qed.

Lemma dataset_loop_rows (num_samples : nat) (dataset : list Sample)
    (feature_data : list FeatureRow) (g : rng) :
  exists (new : list Sample) (g' : rng),
    dataset_loop num_samples dataset feature_data g
    = Ok ((dataset ++ new, feature_data ++ map feature_row_of new)%list, g')
    /\ length new = num_samples
    /\ Forall (fun s => valid_params (inputs s)) new.
Proof.
  revert dataset feature_data g.
  induction num_samples as [|n IH]; intros dataset feature_data g.
  - exists [], g. cbn. rewrite !app_nil_r. repeat split. constructor.
  - cbn [dataset_loop].
    destruct (generate_sample_Ok g) as (sample & g1 & Hs & Hvalid).
    rewrite (bind_Ok _ _ _ _ _ Hs). cbv zeta.
    destruct (IH (dataset ++ [sample])%list
                (feature_data ++ [feature_row_of sample])%list g1)
      as (new & g' & Hloop & Hlen & Hall).
    exists (sample :: new), g'. split.
    + unfold feature_row_of in *. rewrite Hloop. cbn [map].
      now rewrite <- !app_assoc.
    + split; [cbn; lia|]. now constructor.
Qed.

(** The loop of [main] keeps the samples and the feature rows in step: run
    from empty lists for any number of samples, it returns that many
    samples with inputs from the parameter spaces and one feature row per
    sample in the same order, row i holding the inputs of sample i and
    their feature vector of 28 entries. *)
Theorem dataset_loop_rows_match_samples (num_samples : nat) (g : rng) :
  exists (dataset : list Sample) (feature_data : list FeatureRow) (g' : rng),
    dataset_loop num_samples [] [] g = Ok ((dataset, feature_data), g')
    /\ length dataset = num_samples
    /\ feature_data = map feature_row_of dataset
    /\ Forall (fun s => valid_params (inputs s)) dataset
    /\ Forall (fun row => features row = create_feature_vector (row_inputs row)
                          /\ length (features row) = 28%nat) feature_data.
Proof.
  destruct (dataset_loop_rows num_samples [] [] g) as (new & g' & Hloop & Hlen & Hall).
  exists new, (map feature_row_of new), g'.
  split; [exact Hloop|]. split; [exact Hlen|]. split; [reflexivity|].
  split; [exact Hall|].
  apply Forall_fmap, Forall_forall. intros s _.
  unfold compose, feature_row_of. cbn [features row_inputs].
  split; [reflexivity | apply create_feature_vector_length].
Qed.



End SampleFurther.

Lemma generate_sample_consistent_witness :
  RandomStateLaws lcg_random_state
  /\ exists (sample : Sample) (g' : Z),
       generate_sample (G := lcg_random_state) 42%Z = Ok (sample, g')
       /\ valid_params (inputs sample).
Proof.
  split; [exact lcg_random_state_laws|].
  destruct (generate_sample_consistent (G := lcg_random_state)
              (HL := lcg_random_state_laws) 42%Z)
    as (sample & g0 & g1 & g2 & g3 & g' & Hrun & Hvalid & _).
  exists sample, g'. split; assumption.
Defined.

Lemma dataset_loop_rows_match_samples_witness :
  RandomStateLaws lcg_random_state
  /\ exists (dataset : list Sample) (feature_data : list FeatureRow) (g' : Z),
       dataset_loop (G := lcg_random_state) 3 [] [] 42%Z
       = Ok ((dataset, feature_data), g')
       /\ length dataset = 3%nat
       /\ feature_data = map feature_row_of dataset.
Proof.
  split; [exact lcg_random_state_laws|].
  destruct (dataset_loop_rows_match_samples (G := lcg_random_state)
              (HL := lcg_random_state_laws) 3 42%Z)
    as (dataset & feature_data & g' & Hrun & Hlen & Hrows & _).
  exists dataset, feature_data, g'. split; [exact Hrun|]. split; assumption.
Defined.


(** * The dashboard script *)

(** ** The metal lookup *)

Lemma upper_ascii_never_lower (c : Ascii.ascii) :
  let n := Ascii.nat_of_ascii (app.upper_ascii c) in
  ((97 <=? n)%nat && (n <=? 122)%nat)%bool = false.
Proof.
  destruct c as [b0 b1 b2 b3 b4 b5 b6 b7].
  destruct b0, b1, b2, b3, b4, b5, b6, b7; vm_compute; reflexivity.
Qed.

(** A two-letter key whose second letter is a lower-case letter is never
    the upper-case form of a string. *)
Lemma upper_not_capitalised (s : string) (a b : Ascii.ascii) :
  ((97 <=? Ascii.nat_of_ascii b)%nat && (Ascii.nat_of_ascii b <=? 122)%nat)%bool = true ->
  app.upper s <> String a (String b EmptyString).
Proof.
  intros Hb Hs. destruct s as [|c1 [|c2 rest]]; cbn in Hs; try discriminate.
  injection Hs as _ Hc2 _. pose proof (upper_ascii_never_lower c2) as Hn.
  cbv zeta in Hn. rewrite Hc2 in Hn. congruence.
Qed.

Lemma METAL_DATABASE_upper_None (s : string) :
  app.METAL_DATABASE !! app.upper s = None.
Proof.
  apply not_elem_of_list_to_map_1. intros Hin.
  unfold app.METAL_DATABASE_items in Hin. cbn in Hin.
  split_elem_of Hin; (eapply upper_not_capitalised; [|exact Hin]); reflexivity.
Qed.

(** The dashboard looks the metal up under its upper-case form, and every
    key of its database has a lower-case second letter: the lookup never
    finds an entry, and every metal, those of the database included, gets
    the default entry (redox factor 1.0, conductivity 1.0, grey). *)
Theorem app_get_metal_properties_always_default (metal : string) :
  app.is_ascii metal = true ->
  app.METAL_DATABASE !! app.upper metal = None
  /\ app.get_metal_properties metal = app.default_metal_entry.
Proof.
  intros _. pose proof (METAL_DATABASE_upper_None metal) as Hnone.
  split; [exact Hnone|]. unfold app.get_metal_properties. now rewrite Hnone.
Qed.

Lemma app_get_metal_properties_always_default_witness :
  app.is_ascii "Cu" = true
  /\ app.get_metal_properties "Cu" = app.default_metal_entry.
Proof.
  assert (H : app.is_ascii "Cu" = true) by reflexivity.
  split; [exact H|].
  exact (proj2 (app_get_metal_properties_always_default "Cu" H)).
Defined.

(** ** The literature lookup *)

Lemma contains_prefix (needle haystack : string) :
  String.prefix needle haystack = true -> app.contains needle haystack = true.
Proof. intros H. destruct haystack; cbn [app.contains]; now rewrite H. Qed.

Lemma contains_cons (needle rest : string) (c : Ascii.ascii) :
  app.contains needle rest = true -> app.contains needle (String c rest) = true.
Proof. intros H. cbn [app.contains]. rewrite H. now destruct (String.prefix _ _). Qed.

Lemma contains_prefix_app (a b haystack : string) :
  String.prefix (a ++ b) haystack = true -> app.contains b haystack = true.
Proof.
  revert haystack. induction a as [|c a IH]; intros haystack H.
  - now apply contains_prefix.
  - destruct haystack as [|c' rest]; [discriminate H|].
    change (String.prefix (String c (a ++ b)) (String c' rest) = true) in H.
    cbn [String.prefix] in H.
    destruct (Ascii.ascii_dec c c'); [|discriminate H].
    apply contains_cons, IH, H.
Qed.

(** A string that contains [a ++ b] contains [b]. *)
Lemma contains_app (a b haystack : string) :
  app.contains (a ++ b) haystack = true -> app.contains b haystack = true.
Proof.
  induction haystack as [|c rest IH]; intros H; cbn [app.contains] in H;
    destruct (String.prefix (a ++ b) _) eqn:Hp;
    try (now apply (contains_prefix_app a b)); try discriminate H.
  apply contains_cons, IH, H.
Qed.

Lemma clean_ligand_not_DOBDC (ligand : string) :
  app.clean_ligand ligand <> "DOBDC".
Proof.
  unfold app.clean_ligand.
  destruct (app.contains "BDC" ligand) eqn:Hbdc; [discriminate|].
  destruct (app.contains "BTC" ligand); [discriminate|].
  destruct (app.contains "DOBDC" ligand) eqn:Hdo.
  { apply (contains_app "DO" "BDC") in Hdo. congruence. }
  destruct (app.contains "TPA" ligand); [discriminate|].
  intros ->. discriminate Hbdc.
Qed.

Lemma key_Co_DOBDC (metal clean : string) :
  metal ++ "-" ++ clean = "Co-DOBDC" -> clean = "DOBDC".
Proof.
  intros H.
  destruct metal as [|c1 metal]; cbn in H; [discriminate|].
  destruct metal as [|c2 metal]; cbn in H; [discriminate|].
  destruct metal as [|c3 metal]; cbn in H; [now injection H|].
  do 6 (destruct metal as [|? metal]; cbn in H; [discriminate|]).
  destruct metal; discriminate.
Qed.

(** The branch for DOBDC is never taken: a ligand whose name contains
    DOBDC contains BDC and is looked up as BDC, so the reference stored
    under Co-DOBDC is never returned, for any metal and any ligand. *)
Theorem app_get_scholar_reference_never_DOBDC (metal ligand : string) :
  (app.contains "DOBDC" ligand = true ->
   app.get_scholar_reference metal ligand
   = app.SCHOLAR_REFERENCES !! (metal ++ "-BDC"))
  /\ app.SCHOLAR_REFERENCES !! "Co-DOBDC" <> None
  /\ app.get_scholar_reference metal ligand <> app.SCHOLAR_REFERENCES !! "Co-DOBDC".
Proof.
  split; [|split].
  - intros Hdo. apply (contains_app "DO" "BDC") in Hdo.
    unfold app.get_scholar_reference, app.clean_ligand. now rewrite Hdo.
  - vm_compute. discriminate.
  - unfold app.get_scholar_reference. intros Heq.
    assert (Hco : exists r, app.SCHOLAR_REFERENCES !! "Co-DOBDC" = Some r
                            /\ app.paper r
                               = "Cobalt-Organic Framework Supercapacitors (2022)")
      by (eexists; split; reflexivity).
    destruct Hco as (r & Hr & Hpaper). rewrite Hr in Heq.
    apply elem_of_list_to_map_2 in Heq.
    unfold app.SCHOLAR_REFERENCES_items in Heq.
    split_elem_of Heq; injection Heq as Hkey Hrec; subst r; cbn in Hpaper;
      try discriminate Hpaper.
    apply key_Co_DOBDC in Hkey. now apply clean_ligand_not_DOBDC in Hkey.
Qed.

(** ** The simulation behind the plots *)

Section AppSimulation.
Context {G : RandomState}.
Local Open Scope R_scope.

(** The loop returns: for every current density, in order, one curve built
    from 200 noise terms, one specific capacity and one specific
    capacitance. *)
Lemma simulation_loop_Ok (bc : Z) (mult : R) (vr : R * R) (tmax : R)
    (currents : list R) (data : list (R * GcdCurve)) (caps capcs : list R)
    (g : rng) :
  snd vr - fst vr <> 0 ->
  exists (noises : list (list R)) (g' : rng),
    length noises = length currents
    /\ Forall (fun n => length n = 200%nat) noises
    /\ app.simulation_loop bc mult vr tmax currents data caps capcs g
       = Ok ((data ++ zip_with (fun c n => (c, app.curve_at bc mult vr tmax c n))
                        currents noises,
              caps ++ map (app.charge_at bc mult tmax) currents,
              capcs ++ map (fun c => app.charge_at bc mult tmax c / (snd vr - fst vr))
                           currents)%list, g').
Proof.
  intros Hwindow. revert data caps capcs g.
  induction currents as [|c rest IH]; intros data caps capcs g.
  - exists [], g. cbn. rewrite !app_nil_r. repeat split. constructor.
  - cbn [app.simulation_loop]. cbv zeta.
    match goal with
    | |- context [bind (np_random_normal ?loc ?scale ?size) _ ?s] =>
        destruct (np_random_normal_Ok loc scale size s ltac:(lra)) as (n & g1 & Hn & Hlen)
    end.
    rewrite linspace_length in Hlen.
    rewrite (bind_Ok _ _ _ _ _ Hn).
    destruct (Req_dec_T (snd vr - fst vr) 0) as [Hzero | _]; [contradiction|].
    match goal with
    | |- context [app.simulation_loop _ _ _ _ rest ?d ?q ?k g1] =>
        destruct (IH d q k g1) as (noises & g' & Hnum & Hall & Hloop)
    end.
    exists (n :: noises), g'. split; [cbn; lia|]. split; [now constructor|].
    rewrite Hloop. cbn [zip_with map]. rewrite <- !app_assoc. reflexivity.
Qed.

Lemma electrode_boost_known (e : string) :
  e ∈ ELECTRODES ->
  exists boost, app.electrode_boost !! e = Some boost /\ 1.0 <= boost <= 1.3.
Proof.
  intros He. unfold ELECTRODES in He. split_elem_of He;
    (eexists; split; [reflexivity | cbn; lra]).
Qed.

Lemma electrode_boost_unknown (e : string) :
  e ∉ ELECTRODES -> app.electrode_boost !! e = None.
Proof. intros He. now apply not_elem_of_list_to_map_1. Qed.

(** The simulation returns as soon as the multiplier is there. *)
Lemma MOF_style_simulation_shape (p : MaterialParameters) (vr : R * R) (tmax : R)
    (g : rng) (mult : R) :
  app.capacity_mult p = Ok mult -> snd vr - fst vr <> 0 ->
  exists (noises : list (list R)) (g1 : rng) (Zrb Zib Zra Zia : list R),
    length noises = 9%nat
    /\ Forall (fun n => length n = 200%nat) noises
    /\ length Zrb = 50%nat /\ length Zib = 50%nat
    /\ length Zra = 50%nat /\ length Zia = 50%nat
    /\ app.MOF_style_simulation p vr tmax g
       = Ok ({| app.gcd_data :=
                  zip_with (fun c n =>
                              (c, app.curve_at (100 * valency p) mult vr tmax c n))
                           app.current_densities noises;
                app.result_current_densities := app.current_densities;
                app.specific_capacities :=
                  map (app.charge_at (100 * valency p) mult tmax)
                      app.current_densities;
                app.specific_capacitances :=
                  map (fun c => app.charge_at (100 * valency p) mult tmax c
                                / (snd vr - fst vr))
                      app.current_densities;
                app.eis_before := {| app.z_real := Zrb; app.z_imag := Zib |};
                app.eis_after := {| app.z_real := Zra; app.z_imag := Zia |};
                app.Rs_before := 1.5 + 0.5 * fst (random g1);
                app.Rs_after := (1.5 + 0.5 * fst (random g1)) * 0.95;
                app.Rct_before :=
                  5.0 + 3.0 / app.conductivity (app.get_metal_properties (metal p));
                app.Rct_after :=
                  2.0 + 1.0 / app.conductivity (app.get_metal_properties (metal p))
             |}, snd (random g1)).
Proof.
  intros Hmult Hwindow. unfold app.MOF_style_simulation.
  rewrite (bind_lift_Ok _ _ _ _ Hmult).
  destruct (simulation_loop_Ok (100 * valency p) mult vr tmax
              app.current_densities [] [] [] g Hwindow)
    as (noises & g1 & Hnum & Hall & Hloop).
  rewrite (bind_Ok _ _ _ _ _ Hloop).
  unfold np_random_random. rewrite bind_draw.
  eexists noises, g1, _, _, _, _.
  split; [exact Hnum|]. split; [exact Hall|].
  split; [|split; [|split; [|split; [|reflexivity]]]];
    now rewrite !length_map, logspace_length.
Qed.
End AppSimulation.

Section AppSimulationProperties.
Context {G : RandomState} {HL : RandomStateLaws G}.
Local Open Scope R_scope.

Lemma app_metal_entry_positive (m : string) :
  0 < app.redox_factor (app.get_metal_properties m)
  /\ 0 < app.conductivity (app.get_metal_properties m).
Proof.
  unfold app.get_metal_properties.
  destruct (app.METAL_DATABASE !! app.upper m) as [entry|] eqn:He; [|cbn; lra].
  apply elem_of_list_to_map_2 in He. unfold app.METAL_DATABASE_items in He.
  split_elem_of He; injection He as _ ->; cbn; lra.
Qed.

Lemma app_capacity_mult_known (p : MaterialParameters) :
  electrode p ∈ ELECTRODES ->
  exists boost,
    app.electrode_boost !! electrode p = Some boost /\ 1.0 <= boost <= 1.3
    /\ app.capacity_mult p
       = Ok (app.redox_factor (app.get_metal_properties (metal p)) * boost
             * (if is_mof p then 1.5 else 1.0)).
Proof.
  intros He. destruct (electrode_boost_known _ He) as (boost & Hb & Hrange).
  exists boost. split; [exact Hb|]. split; [exact Hrange|].
  unfold app.capacity_mult, getitem. now rewrite Hb.
Qed.

Lemma app_current_positive (c : R) :
  c ∈ app.current_densities -> 0.25 <= c <= 2.25.
Proof.
  intros Hc. unfold app.current_densities in Hc. split_elem_of Hc; lra.
Qed.

(** With a known electrode, a valency from 1 to 3, a positive time limit
    and a voltage window whose lower end is below its upper end, the
    simulation returns nine curves, one per current density and in their
    order, with nine specific capacities and nine specific capacitances;
    every curve has 200 times and 200 voltages, its time grid starts at 0,
    never decreases and ends at a positive discharge time that does not
    exceed the time limit, and every voltage lies inside the voltage
    window; the four impedance sequences have 50 points each. *)
Theorem app_simulation_curves (p : MaterialParameters) (vr : R * R) (tmax : R)
    (g : rng) :
  electrode p ∈ ELECTRODES -> (1 <= valency p <= 3)%Z -> 0 < tmax ->
  fst vr < snd vr ->
  exists (res : app.Results) (g' : rng),
    app.MOF_style_simulation p vr tmax g = Ok (res, g')
    /\ (app.gcd_data res).*1 = app.current_densities
    /\ app.result_current_densities res = app.current_densities
    /\ length (app.specific_capacities res) = 9%nat
    /\ length (app.specific_capacitances res) = 9%nat
    /\ Forall (fun entry =>
                 length (time (snd entry)) = 200%nat
                 /\ length (voltage (snd entry)) = 200%nat
                 /\ head (time (snd entry)) = Some 0
                 /\ nondecreasing (time (snd entry))
                 /\ (exists max_time,
                        last (time (snd entry)) = Some max_time
                        /\ 0 < max_time <= tmax)
                 /\ Forall (fun v => fst vr <= v <= snd vr) (voltage (snd entry)))
              (app.gcd_data res)
    /\ length (app.z_real (app.eis_before res)) = 50%nat
    /\ length (app.z_imag (app.eis_before res)) = 50%nat
    /\ length (app.z_real (app.eis_after res)) = 50%nat
    /\ length (app.z_imag (app.eis_after res)) = 50%nat.
Proof.
  intros He [Hval _] Htmax Hvr.
  destruct (app_capacity_mult_known p He) as (boost & _ & Hboost & Hmult).
  pose proof (app_metal_entry_positive (metal p)) as [Hredox _].
  set (mult := app.redox_factor (app.get_metal_properties (metal p)) * boost
               * (if is_mof p then 1.5 else 1.0)) in *.
  assert (Hmpos : 0 < mult).
  { subst mult. repeat apply Rmult_lt_0_compat; try lra. destruct (is_mof p); lra. }
  destruct (MOF_style_simulation_shape p vr tmax g mult Hmult ltac:(lra))
    as (noises & g1 & Zrb & Zib & Zra & Zia & Hnum & Hall & H1 & H2 & H3 & H4 & Hrun).
  eexists _, _. split; [exact Hrun|].
  cbn [app.gcd_data app.result_current_densities app.specific_capacities
       app.specific_capacitances app.eis_before app.eis_after app.z_real app.z_imag].
  split.
  { apply fmap_zip_with_l; [reflexivity|]. rewrite Hnum. cbn. lia. }
  split; [reflexivity|].
  split; [now rewrite length_map|]. split; [now rewrite length_map|].
  split; [|repeat split; assumption].
  apply Forall_lookup. intros i [c curve] Hentry.
  apply lookup_zip_with_Some in Hentry as (c' & n & Heq & Hc & Hn).
  injection Heq as -> ->.
  assert (Hnlen : length n = 200%nat).
  { rewrite Forall_lookup in Hall. exact (Hall i n Hn). }
  apply list_elem_of_lookup_2, app_current_positive in Hc.
  assert (Hmt : 0 < app.discharge_time (100 * valency p) mult c' tmax <= tmax).
  { unfold app.discharge_time. split; [|apply Rmin_r].
    apply Rmin_pos; [|assumption]. apply Rdiv_lt_0_compat; [|lra].
    apply Rmult_lt_0_compat; [|assumption]. apply IZR_lt. lia. }
  unfold app.curve_at. cbn [snd time voltage].
  split; [apply linspace_length|].
  split.
  { rewrite clip_length. apply add_length_eq; [|assumption].
    unfold app.linear_decay. now rewrite length_map, linspace_length. }
  split; [apply linspace_head; lia|].
  split; [apply linspace_nondecreasing; [lia | lra]|].
  split; [eexists; split; [apply linspace_last; lia | exact Hmt]|].
  apply clip_range. lra.
Qed.

(** An electrode the simulation has no boost for raises [KeyError] with
    the electrode as key, before any curve is drawn. *)
Theorem app_simulation_unknown_electrode (p : MaterialParameters) (vr : R * R)
    (tmax : R) (g : rng) :
  electrode p ∉ ELECTRODES ->
  app.MOF_style_simulation p vr tmax g = Raise (KeyError (electrode p)).
Proof.
  intros He. unfold app.MOF_style_simulation. apply bind_lift_Raise.
  unfold app.capacity_mult, getitem. now rewrite (electrode_boost_unknown _ He).
Qed.

(** An empty voltage window makes the simulation fail: with a known
    electrode and a valency from 1 to 3, equal ends of the window raise
    [ZeroDivisionError] where the first specific capacitance is computed. *)
Theorem app_simulation_empty_window (p : MaterialParameters) (vr : R * R)
    (tmax : R) (g : rng) :
  electrode p ∈ ELECTRODES -> (1 <= valency p <= 3)%Z -> fst vr = snd vr ->
  app.MOF_style_simulation p vr tmax g = Raise ZeroDivisionError.
Proof.
  intros He _ Hvr.
  destruct (app_capacity_mult_known p He) as (boost & _ & _ & Hmult).
  unfold app.MOF_style_simulation. rewrite (bind_lift_Ok _ _ _ _ Hmult).
  apply bind_Raise. unfold app.current_densities.
  cbn [app.simulation_loop]. cbv zeta.
  match goal with
  | |- context [bind (np_random_normal ?loc ?scale ?size) _ ?s] =>
      destruct (np_random_normal_Ok loc scale size s ltac:(lra)) as (n & g1 & Hn & _)
  end.
  rewrite (bind_Ok _ _ _ _ _ Hn).
  destruct (Req_dec_T (snd vr - fst vr) 0) as [_ | Hne]; [reflexivity | lra].
Qed.

Lemma map_ext_elem_of {A B : Type} (f h : A -> B) (l : list A) :
  (forall x, x ∈ l -> f x = h x) -> map f l = map h l.
Proof.
  induction l as [|x l IH]; intros Hf; cbn; [reflexivity|].
  rewrite Hf by (apply elem_of_cons; now left).
  f_equal. apply IH. intros y Hy. apply Hf, elem_of_cons. now right.
Qed.

(** The specific capacity of the dashboard does not depend on the current
    density, nor on the metal: for a valency from 1 to 3, a known
    electrode, a time limit of 40 or more (the page allows 100 or more) and
    a window with distinct ends, the time limit is never reached, so each
    specific capacity is current * ((100 * valency * mult) / (current * 60))
    * 3600 / 1000 with mult = 1.0 * boost(electrode) * (1.5 if is_mof else
    1.0), which is 6 * valency * boost * MOF factor up to rounding (here:
    to within 1e-9); each specific capacitance is the specific capacity
    divided by the width of the window. *)
Theorem app_simulation_flat_capacity (p : MaterialParameters) (vr : R * R)
    (tmax : R) (g : rng) :
  app.is_ascii (metal p) = true -> electrode p ∈ ELECTRODES ->
  (1 <= valency p <= 3)%Z -> 40 <= tmax -> fst vr <> snd vr ->
  exists (boost : R) (res : app.Results) (g' : rng),
    app.electrode_boost !! electrode p = Some boost
    /\ app.MOF_style_simulation p vr tmax g = Ok (res, g')
    /\ app.specific_capacities res
       = map (fun c =>
                c * ((IZR (100 * valency p)
                      * (1.0 * boost * (if is_mof p then 1.5 else 1.0)))
                     / (c * 60)) * 3600 / 1000)
             app.current_densities
    /\ Forall (fun q =>
                 Rabs (q - 6 * IZR (valency p) * boost
                           * (if is_mof p then 1.5 else 1.0)) <= 1e-9)
              (app.specific_capacities res)
    /\ app.specific_capacitances res
       = map (fun q => q / (snd vr - fst vr)) (app.specific_capacities res).
Proof.
  intros _ He [Hlo Hhi] Htmax Hvr.
  destruct (app_capacity_mult_known p He) as (boost & Hb & Hboost & Hmult).
  unfold app.get_metal_properties in Hmult.
  rewrite METAL_DATABASE_upper_None in Hmult.
  cbn [app.redox_factor app.default_metal_entry] in Hmult.
  destruct (MOF_style_simulation_shape p vr tmax g _ Hmult ltac:(lra))
    as (noises & g1 & Zrb & Zib & Zra & Zia & _ & _ & _ & _ & _ & _ & Hrun).
  eexists boost, _, _. split; [exact Hb|]. split; [exact Hrun|].
  cbn [app.specific_capacities app.specific_capacitances].
  apply IZR_le in Hlo, Hhi.
  assert (Hmof : 1.0 <= (if is_mof p then 1.5 else 1.0) <= 1.5)
    by (destruct (is_mof p); lra).
  set (mof := if is_mof p then 1.5 else 1.0) in *. clearbody mof.
  assert (Hvb : 0 < IZR (valency p) * boost <= 3.9) by nra.
  assert (Hvbm : 0 < IZR (valency p) * boost * mof <= 5.85) by nra.
  assert (Hq : forall c, c ∈ app.current_densities ->
                 app.charge_at (100 * valency p) (1.0 * boost * mof) tmax c
                 = c * ((IZR (100 * valency p) * (1.0 * boost * mof)) / (c * 60))
                   * 3600 / 1000).
  { intros c Hc. apply app_current_positive in Hc.
    unfold app.charge_at, app.discharge_time. rewrite Rmin_left; [reflexivity|].
    rewrite mult_IZR.
    apply (Rmult_le_reg_r (c * 60)); [lra|].
    replace (100 * IZR (valency p) * (1.0 * boost * mof) / (c * 60) * (c * 60))
      with (100 * IZR (valency p) * (1.0 * boost * mof)) by (field; lra).
    nra. }
  assert (Hcaps : map (app.charge_at (100 * valency p) (1.0 * boost * mof) tmax)
                      app.current_densities
                  = map (fun c =>
                           c * ((IZR (100 * valency p) * (1.0 * boost * mof))
                                / (c * 60)) * 3600 / 1000)
                        app.current_densities)
    by (apply map_ext_elem_of; exact Hq).
  split; [exact Hcaps|]. split.
  - rewrite Hcaps. apply Forall_fmap, Forall_forall. intros c Hc. cbn beta.
    apply app_current_positive in Hc.
    assert (Hgen : forall X, c * (X / (c * 60)) * 3600 / 1000 = X * 6 / 100)
      by (intros X; field; lra).
    unfold compose. rewrite Hgen, mult_IZR.
    replace (100 * IZR (valency p) * (1.0 * boost * mof) * 6 / 100
             - 6 * IZR (valency p) * boost * mof) with 0 by nra.
    rewrite Rabs_R0. lra.
  - rewrite <- list_fmap_compose. reflexivity.
Qed.

(** The metal has no effect on the dashboard's simulation: two parameter
    sets that differ in the metal alone give the same result from the same
    generator state, and with a valency from 1 to 3 and a window with
    distinct ends the charge-transfer resistances are always 8.0 before
    and 3.0 after cycling; the solution resistance lies between 1.5 and 2.0
    and its value after cycling is 0.95 times it. *)
Theorem app_simulation_ignores_metal (p1 p2 : MaterialParameters) (vr : R * R)
    (tmax : R) (g : rng) :
  app.is_ascii (metal p1) = true -> app.is_ascii (metal p2) = true ->
  valency p1 = valency p2 -> electrode p1 = electrode p2 ->
  is_mof p1 = is_mof p2 -> electrode p1 ∈ ELECTRODES ->
  (1 <= valency p1 <= 3)%Z -> fst vr <> snd vr ->
  app.MOF_style_simulation p1 vr tmax g = app.MOF_style_simulation p2 vr tmax g
  /\ exists (res : app.Results) (g' : rng),
       app.MOF_style_simulation p1 vr tmax g = Ok (res, g')
       /\ app.Rct_before res = 8.0 /\ app.Rct_after res = 3.0
       /\ 1.5 <= app.Rs_before res <= 2.0
       /\ app.Rs_after res = app.Rs_before res * 0.95.
Proof.
  intros _ _ Hv He Hb Hin _ Hvr. split.
  - unfold app.MOF_style_simulation, app.capacity_mult, app.get_metal_properties.
    now rewrite !METAL_DATABASE_upper_None, Hv, He, Hb.
  - destruct (app_capacity_mult_known p1 Hin) as (boost & _ & _ & Hmult).
    destruct (MOF_style_simulation_shape p1 vr tmax g _ Hmult ltac:(lra))
      as (noises & g1 & Zrb & Zib & Zra & Zia & _ & _ & _ & _ & _ & _ & Hrun).
    eexists _, _. split; [exact Hrun|].
    cbn [app.Rct_before app.Rct_after app.Rs_before app.Rs_after].
    unfold app.get_metal_properties. rewrite METAL_DATABASE_upper_None.
    cbn [app.conductivity app.default_metal_entry].
    pose proof (random_range g1).
    split; [lra|]. split; [lra|]. split; [lra | reflexivity].
Qed.
End AppSimulationProperties.

(** ** Concrete instances *)

Lemma create_feature_vector_injective_witness :
  valid_params cu_bdc_params
  /\ create_feature_vector cu_bdc_params = create_feature_vector cu_bdc_params
  /\ cu_bdc_params = cu_bdc_params.
Proof.
  assert (Hv : valid_params cu_bdc_params)
    by (apply valid_paramsb_spec; vm_compute; reflexivity).
  split; [exact Hv|]. split; [reflexivity|].
  exact (create_feature_vector_injective cu_bdc_params cu_bdc_params Hv Hv eq_refl).
Defined.

Lemma create_feature_vector_unit_range_witness :
  valid_params cu_bdc_params
  /\ Forall (fun x => 0 <= x <= 1)%R (create_feature_vector cu_bdc_params).
Proof.
  assert (Hv : valid_params cu_bdc_params)
    by (apply valid_paramsb_spec; vm_compute; reflexivity).
  split; [exact Hv|]. exact (create_feature_vector_unit_range cu_bdc_params Hv).
Defined.

Lemma app_simulation_curves_witness :
  (electrode cu_bdc_params ∈ ELECTRODES) /\ (1 <= valency cu_bdc_params <= 3)%Z
  /\ (0 < default_time_range_max)%R
  /\ (fst default_voltage_range < snd default_voltage_range)%R
  /\ exists (res : app.Results) (g' : Z),
       app.MOF_style_simulation (G := lcg_random_state) cu_bdc_params
         default_voltage_range default_time_range_max 42%Z = Ok (res, g')
       /\ length (app.specific_capacities res) = 9%nat.
Proof.
  assert (He : electrode cu_bdc_params ∈ ELECTRODES)
    by (apply (proj1 (bool_decide_eq_true _)); vm_compute; reflexivity).
  assert (Hv : (1 <= valency cu_bdc_params <= 3)%Z) by (cbn; lia).
  assert (Ht : (0 < default_time_range_max)%R)
    by (unfold default_time_range_max; lra).
  assert (Hr : (fst default_voltage_range < snd default_voltage_range)%R)
    by (cbn; lra).
  repeat (split; [assumption|]).
  destruct (app_simulation_curves (G := lcg_random_state) cu_bdc_params
              default_voltage_range default_time_range_max 42%Z He Hv Ht Hr)
    as (res & g' & Hrun & _ & _ & Hlen & _).
  exists res, g'. split; assumption.
Defined.

Lemma app_simulation_unknown_electrode_witness :
  (electrode gold_foil_params ∉ ELECTRODES)
  /\ app.MOF_style_simulation (G := lcg_random_state) gold_foil_params
       default_voltage_range default_time_range_max 42%Z
     = Raise (KeyError "Gold Foil").
Proof.
  assert (He : electrode gold_foil_params ∉ ELECTRODES)
    by (apply (proj1 (bool_decide_eq_false _)); vm_compute; reflexivity).
  split; [exact He|].
  exact (app_simulation_unknown_electrode (G := lcg_random_state) gold_foil_params
           default_voltage_range default_time_range_max 42%Z He).
Defined.

Lemma app_simulation_empty_window_witness :
  (electrode cu_bdc_params ∈ ELECTRODES) /\ (1 <= valency cu_bdc_params <= 3)%Z
  /\ app.MOF_style_simulation (G := lcg_random_state) cu_bdc_params
       (0.3, 0.3)%R default_time_range_max 42%Z
     = Raise ZeroDivisionError.
Proof.
  assert (He : electrode cu_bdc_params ∈ ELECTRODES)
    by (apply (proj1 (bool_decide_eq_true _)); vm_compute; reflexivity).
  assert (Hv : (1 <= valency cu_bdc_params <= 3)%Z) by (cbn; lia).
  split; [exact He|]. split; [exact Hv|].
  exact (app_simulation_empty_window (G := lcg_random_state) cu_bdc_params
           (0.3, 0.3)%R default_time_range_max 42%Z He Hv eq_refl).
Defined.

Lemma app_simulation_flat_capacity_witness :
  app.is_ascii (metal cu_bdc_params) = true
  /\ (electrode cu_bdc_params ∈ ELECTRODES)
  /\ (1 <= valency cu_bdc_params <= 3)%Z
  /\ (40 <= default_time_range_max)%R
  /\ (fst default_voltage_range <> snd default_voltage_range)%R
  /\ exists (res : app.Results) (g' : Z),
       app.MOF_style_simulation (G := lcg_random_state) cu_bdc_params
         default_voltage_range default_time_range_max 42%Z = Ok (res, g')
       /\ Forall (fun q => Rabs (q - 6 * 2 * 1.3 * 1.5) <= 1e-9)%R
                 (app.specific_capacities res).
Proof.
  assert (Ha : app.is_ascii (metal cu_bdc_params) = true) by reflexivity.
  assert (He : electrode cu_bdc_params ∈ ELECTRODES)
    by (apply (proj1 (bool_decide_eq_true _)); vm_compute; reflexivity).
  assert (Hv : (1 <= valency cu_bdc_params <= 3)%Z) by (cbn; lia).
  assert (Ht : (40 <= default_time_range_max)%R)
    by (unfold default_time_range_max; lra).
  assert (Hr : (fst default_voltage_range <> snd default_voltage_range)%R)
    by (cbn; lra).
  repeat (split; [assumption|]).
  destruct (app_simulation_flat_capacity (G := lcg_random_state) cu_bdc_params
              default_voltage_range default_time_range_max 42%Z Ha He Hv Ht Hr)
    as (boost & res & g' & Hb & Hrun & _ & Hcap & _).
  exists res, g'. split; [exact Hrun|].
  assert (Hb' : app.electrode_boost !! electrode cu_bdc_params = Some 1.3%R)
    by reflexivity.
  rewrite Hb' in Hb. injection Hb as <-. exact Hcap.
Defined.

Lemma app_simulation_ignores_metal_witness :
  RandomStateLaws lcg_random_state
  /\ app.is_ascii (metal cu_bdc_params) = true
  /\ app.is_ascii "Ag" = true
  /\ (1 <= valency cu_bdc_params <= 3)%Z
  /\ (fst default_voltage_range <> snd default_voltage_range)%R
  /\ app.MOF_style_simulation (G := lcg_random_state) cu_bdc_params
       default_voltage_range default_time_range_max 42%Z
     = app.MOF_style_simulation (G := lcg_random_state)
         {| metal := "Ag"; valency := 2; ligand := "BDC";
            assembly := "Two-Electrode"; electrode := "Nickel Foam";
            is_mof := true |}
         default_voltage_range default_time_range_max 42%Z.
Proof.
  assert (H1 : app.is_ascii (metal cu_bdc_params) = true) by reflexivity.
  assert (H2 : app.is_ascii "Ag" = true) by reflexivity.
  assert (He : electrode cu_bdc_params ∈ ELECTRODES)
    by (apply (proj1 (bool_decide_eq_true _)); vm_compute; reflexivity).
  assert (Hv : (1 <= valency cu_bdc_params <= 3)%Z) by (cbn; lia).
  assert (Hr : (fst default_voltage_range <> snd default_voltage_range)%R)
    by (cbn; lra).
  split; [exact lcg_random_state_laws|].
  split; [exact H1|]. split; [exact H2|]. split; [exact Hv|]. split; [exact Hr|].
  exact (proj1 (app_simulation_ignores_metal (G := lcg_random_state)
                  (HL := lcg_random_state_laws) cu_bdc_params
                  {| metal := "Ag"; valency := 2; ligand := "BDC";
                     assembly := "Two-Electrode"; electrode := "Nickel Foam";
                     is_mof := true |}
                  default_voltage_range default_time_range_max 42%Z
                  H1 H2 eq_refl eq_refl eq_refl He Hv Hr)).
Defined.
